(** * CodeAnt demo tooling: the command-line tool and the report service

    A shallow embedding of two programs of the repository:

    - the command-line script [codeant-demo.js] (class [CodeAntCLI]):
      option parsing, the persisted project configuration, the
      connection gate and the commands built on it;
    - the service class [CodeAntAI] ([src/services/codeantAI.js]): the
      three mock sub-operations, their join and the derived
      recommendations.

    Modelling conventions.
    - JavaScript strings are kept as byte strings (UTF-8); every string
      operation of the source used here ([startsWith('--')],
      [substring(2)], concatenation, [repeat]) acts the same way on
      both views.
    - A JavaScript object used as a dictionary is a [gmap string _]:
      key order, which only shows in the layout of the JSON text, is
      not tracked.
    - A file is represented by what [JSON.parse] makes of its text,
      and [JSON.stringify] followed by [JSON.parse] is the identity on
      the JSON values handled here.
    - The ambient world (file system, clock, console, random
      generator) is threaded explicitly.  Awaiting a timer of [ms]
      milliseconds moves the clock forward by exactly [ms]; the time
      the code itself takes is not counted.
    - Writing a file succeeds, and the clock holds a valid time value.
    - A result of [Math.random()] is a fraction with denominator
      [2^53]; the products and sums formed with it are rounded as
      binary64 arithmetic rounds them, to the nearest double, ties to
      even. *)

From stdpp Require Import gmap strings list fin_maps pretty.

#[local] Set Warnings "-register-all".
#[local] Open Scope string_scope.
#[local] Open Scope Z_scope.

(** ** A fragment of JavaScript values *)

Module JS.

(** JSON values.  A number [JNum m e] stands for [m / 10^e]. *)
Inductive json : Type :=
  | JNull
  | JBool (b : bool)
  | JNum (m : Z) (e : nat)
  | JStr (s : string)
  | JArr (xs : list json)
  | JObj (kv : gmap string json).

(** Thrown values: the error classes that occur.  The texts of the
    errors the engine raises by itself are indicative only. *)
Inductive exn : Type :=
  | Error (message : string)
  | TypeError (message : string)
  | SyntaxError (message : string).

Definition message (e : exn) : string :=
  match e with
  | Error m | TypeError m | SyntaxError m => m
  end.

(** The double quote and the line feed, which string literals here do
    not contain. *)
Definition dq : string := String (Ascii.ascii_of_nat 34) EmptyString.
Definition nl : string := String (Ascii.ascii_of_nat 10) EmptyString.

(** [s.repeat(n)] *)
Fixpoint repeat_str (s : string) (n : nat) : string :=
  match n with
  | O => ""
  | S n' => s ++ repeat_str s n'
  end.

(** [s.startsWith(p)] *)
Definition startsWith (s p : string) : bool := String.prefix p s.

(** [s.substring(n)] *)
Definition substring_from (n : nat) (s : string) : string :=
  String.substring n (String.length s - n) s.

(** JavaScript truthiness of a value that may be [undefined]. *)
Definition truthy (v : option json) : bool :=
  match v with
  | None => false
  | Some JNull => false
  | Some (JBool b) => b
  | Some (JNum m _) => negb (m =? 0)
  | Some (JStr s) => negb (String.eqb s "")
  | Some (JArr _) => true
  | Some (JObj _) => true
  end.

(** Decimal digits of a natural number, without leading zeros. *)
Definition digits (n : N) : string := pretty n.

(** The fraction digits of [r / 10^e] for [0 <= r < 10^e], trailing
    zeros removed: [frac 1 3 = "3"], [frac 2 50 = "5"]. *)
Fixpoint frac (e : nat) (r : N) : string :=
  match e with
  | O => ""
  | S e' =>
      let p := (10 ^ N.of_nat e')%N in
      let d := (r / p)%N in
      let r' := (r mod p)%N in
      if (r' =? 0)%N then digits d else digits d ++ frac e' r'
  end.

(** [String(x)] for a number in plain decimal notation (JavaScript
    switches to exponent notation from 1e21 on and below 1e-6). *)
Definition num_to_string (m : Z) (e : nat) : string :=
  let a := Z.to_N (Z.abs m) in
  let p := (10 ^ N.of_nat e)%N in
  let ip := (a / p)%N in
  let fp := (a mod p)%N in
  (if m <? 0 then "-" else "") ++ digits ip ++
  (if (fp =? 0)%N then "" else "." ++ frac e fp).

(** [String(v)], as template literals apply it.  Array elements that
    are [null] print as the empty string. *)
Fixpoint to_string (v : json) : string :=
  match v with
  | JNull => "null"
  | JBool true => "true"
  | JBool false => "false"
  | JNum m e => num_to_string m e
  | JStr s => s
  | JArr xs =>
      String.concat ","
        (List.map (fun x => match x with JNull => "" | _ => to_string x end) xs)
  | JObj _ => "[object Object]"
  end.

(** [v === 'text'], the test a [switch] applies to each [case]. *)
Definition is_string (v : json) (text : string) : bool :=
  match v with
  | JStr s => String.eqb s text
  | _ => false
  end.

Definition to_string_opt (v : option json) : string :=
  match v with
  | None => "undefined"
  | Some x => to_string x
  end.

(** [v.k] for a property name [k] that no built-in prototype defines
    (the names read by the programs: [connected], [repository]).
    Reading a property of [null] throws. *)
Definition get (v : json) (k : string) : exn + option json :=
  match v with
  | JNull =>
      inl (TypeError ("Cannot read properties of null (reading '" ++ k ++ "')"))
  | JObj kv => inr (kv !! k)
  | _ => inr None
  end.

(** [v.k = x] in strict mode (an ES module), seen through the JSON
    text written afterwards: an object gains the property, an array
    takes it as a non-index property that [JSON.stringify] leaves out,
    [null] and primitives throw. *)
Definition set (v : json) (k : string) (x : json) : exn + json :=
  match v with
  | JObj kv => inr (JObj (<[k := x]> kv))
  | JArr xs => inr (JArr xs)
  | JNull =>
      inl (TypeError ("Cannot set properties of null (setting '" ++ k ++ "')"))
  | _ =>
      inl (TypeError ("Cannot create property '" ++ k ++ "' on " ++ to_string v))
  end.

End JS.

(** ** The clock: [Date.prototype.toISOString] *)

Module Clock.

(** Zero-padded decimal of a non-negative number, at least [w] wide. *)
Definition pad (w : nat) (z : Z) : string :=
  let s := pretty (Z.to_N z) in
  JS.repeat_str "0" (w - String.length s) ++ s.

(** Civil date of a day number counted from 1970-01-01 (proleptic
    Gregorian calendar). *)
Definition civil (days : Z) : Z * Z * Z :=
  let z := days + 719468 in
  let era := z / 146097 in
  let doe := z - era * 146097 in
  let yoe := (doe - doe / 1460 + doe / 36524 - doe / 146096) / 365 in
  let doy := doe - (365 * yoe + yoe / 4 - yoe / 100) in
  let mp := (5 * doy + 2) / 153 in
  let d := doy - (153 * mp + 2) / 5 + 1 in
  let m := if mp <? 10 then mp + 3 else mp - 9 in
  let y := yoe + era * 400 + (if m <=? 2 then 1 else 0) in
  (y, m, d).

(** Years 0 to 9999 print with four digits, the others with a sign and
    six digits. *)
Definition year_string (y : Z) : string :=
  if (0 <=? y) && (y <=? 9999) then pad 4 y
  else (if y <? 0 then "-" else "+") ++ pad 6 (Z.abs y).

Definition iso (t : Z) : string :=
  let '(y, m, d) := civil (t / 86400000) in
  let ms := t mod 86400000 in
  year_string y ++ "-" ++ pad 2 m ++ "-" ++ pad 2 d ++ "T" ++
  pad 2 (ms / 3600000) ++ ":" ++ pad 2 (ms / 60000 mod 60) ++ ":" ++
  pad 2 (ms / 1000 mod 60) ++ "." ++ pad 3 (ms mod 1000) ++ "Z".

(** [new Date(t).toISOString()].  The clock always holds a valid time
    value (within 8.64e15 ms of the epoch), for which the method does
    not throw. *)
Definition toISOString (t : Z) : string := iso t.

End Clock.

(** ** The command-line tool ([codeant-demo.js]) *)

Module CLI.
Import JS.

(** What [JSON.parse] makes of a file's text. *)
Inductive content : Type :=
  | Json (v : json)
  | NotJson.

(** What the host supplies and the model leaves open: the local
    rendering of a date ([toLocaleString]) and the indented text of
    [JSON.stringify(v, null, 2)], whose key order is not tracked. *)
Record host : Type := Host {
  locale : Z -> string;
  stringify : json -> string
}.

(** The world the script runs in: files by path, the clock in
    milliseconds, the lines written by [console.log] and
    [console.error] (one entry per call), and the host. *)
Record world : Type := World {
  fs : gmap string content;
  now : Z;
  out : list string;
  err : list string;
  env : host
}.

(** Computations that read and write the world and may throw. *)
Definition M (A : Type) : Type := world -> (exn + A) * world.

#[global] Instance M_ret : MRet M := fun A a w => (inr a, w).
#[global] Instance M_bind : MBind M := fun A B f c w =>
  match c w with
  | (inl e, w') => (inl e, w')
  | (inr a, w') => f a w'
  end.

Definition throw {A : Type} (e : exn) : M A := fun w => (inl e, w).

Definition lift {A : Type} (r : exn + A) : M A := fun w => (r, w).

Definition log (s : string) : M unit := fun w =>
  (inr tt, World (fs w) (now w) (out w ++ [s]) (err w) (env w)).

Definition log_error (s : string) : M unit := fun w =>
  (inr tt, World (fs w) (now w) (out w) (err w ++ [s]) (env w)).

(** [await this.delay(ms)] *)
Definition delay (ms : Z) : M unit := fun w =>
  (inr tt, World (fs w) (now w + ms) (out w) (err w) (env w)).

(** [Date.now()] *)
Definition date_now : M Z := fun w => (inr (now w), w).

(** [new Date(t).toLocaleString()] *)
Definition toLocaleString (t : Z) : M string := fun w =>
  (inr (locale (env w) t), w).

(** [JSON.stringify(v, null, 2)] as text for the console. *)
Definition json_text (v : json) : M string := fun w =>
  (inr (stringify (env w) v), w).

Definition existsSync (path : string) : M bool := fun w =>
  (inr (bool_decide (is_Some (fs w !! path))), w).

(** [JSON.parse(readFileSync(path, 'utf8'))] *)
Definition read_json (path : string) : M json := fun w =>
  match fs w !! path with
  | None => (inl (Error ("ENOENT: no such file or directory, open '" ++ path ++ "'")), w)
  | Some NotJson => (inl (SyntaxError "Unexpected token in JSON"), w)
  | Some (Json v) => (inr v, w)
  end.

(** [writeFileSync(path, JSON.stringify(v, null, 2))] *)
Definition write_json (path : string) (v : json) : M unit := fun w =>
  (inr tt, World (<[path := Json v]> (fs w)) (now w) (out w) (err w) (env w)).

Fixpoint forEach {A : Type} (f : A -> M unit) (xs : list A) : M unit :=
  match xs with
  | [] => mret tt
  | x :: rest => f x;; forEach f rest
  end.

(** [path.join(dir, name)] for a normalised absolute directory and a
    plain file name. *)
Definition join (dir name : string) : string :=
  if String.eqb dir "/" then "/" ++ name else dir ++ "/" ++ name.

(** The fields set by the constructor. *)
Record cli : Type := Cli {
  projectRoot : string;
  configFile : string;
  defaultConfig : gmap string json
}.

Definition constructor (cwd : string) : cli :=
  {| projectRoot := cwd;
     configFile := join cwd "codeant.config.json";
     defaultConfig :=
       <["projectName" := JStr "FER-PE"]>
       (<["repository" := JStr "github.com/MyNameIsBof/lab3"]>
       (<["language" := JStr "javascript"]>
       (<["framework" := JStr "react"]>
       (<["excludePaths" := JArr [JStr "node_modules"; JStr "dist"; JStr ".git"]]>
       (<["rules" := JObj
            (<["security" := JBool true]>
            (<["quality" := JBool true]>
            (<["performance" := JBool true]>
            (<["accessibility" := JBool true]> ∅))))]>
       (<["thresholds" := JObj
            (<["securityScore" := JNum 8 0]>
            (<["qualityScore" := JNum 7 0]>
            (<["maxVulnerabilities" := JNum 0 0]> ∅)))]> ∅)))))) |}.

(** The option bag: every value is a string or [true]. *)
Abbreviation options := (gmap string json).

(** [options[key] = value] on an object made by [{}] with a string or
    [true] as value: the key [__proto__] is an accessor of
    [Object.prototype] whose setter ignores such values. *)
Definition assign (o : options) (key : string) (value : json) : options :=
  if String.eqb key "__proto__" then o else <[key := value]> o.

(** [args[i + 1] || true] *)
Definition value_or_true (next : option string) : json :=
  match next with
  | Some v => if String.eqb v "" then JBool true else JStr v
  | None => JBool true
  end.

(** One turn of the loop body of [parseOptions] at [args[i]], with
    [args[i + 1]] when there is one. *)
Definition parse_step (arg : string) (next : option string) (o : options) : options :=
  if startsWith arg "--"
  then assign o (substring_from 2 arg) (value_or_true next)
  else o.

(** The loop [for (i = 0; i < args.length; i += 2)] on the arguments
    from index [i] on. *)
Fixpoint parse_from (args : list string) (o : options) : options :=
  match args with
  | [] => o
  | [arg] => parse_step arg None o
  | arg :: next :: rest => parse_from rest (parse_step arg (Some next) o)
  end.

Definition parseOptions (args : list string) : options := parse_from args ∅.

Definition isProjectConnected (self : cli) : M bool :=
  present ← existsSync (configFile self);
  if negb present then mret false
  else
    config ← read_json (configFile self);
    connected ← lift (get config "connected");
    mret (match connected with Some (JBool true) => true | _ => false end).

Definition not_connected : exn :=
  Error ("Repository not connected. Run " ++ dq ++ "connect" ++ dq ++ " first.").

Definition not_initialized : exn :=
  Error ("Project not initialized. Run " ++ dq ++ "init" ++ dq ++ " first.").

Definition initProject (self : cli) (opts : options) : M unit :=
  log ("🚀 Initializing CodeAnt AI project..." ++ nl);;
  let config := opts ∪ defaultConfig self in
  write_json (configFile self) (JObj config);;
  log "✅ Project initialized successfully!";;
  log ("📁 Project: " ++ to_string_opt (config !! "projectName"));;
  log ("🔗 Repository: " ++ to_string_opt (config !! "repository"));;
  log ("⚙️ Config saved to: " ++ configFile self ++ nl);;
  log "🔧 Next steps:";;
  log ("1. Run " ++ dq ++ "node codeant-demo.js connect" ++ dq ++ " to connect your repository");;
  log ("2. Run " ++ dq ++ "node codeant-demo.js scan" ++ dq ++ " to perform security scan");;
  log ("3. Run " ++ dq ++ "node codeant-demo.js analyze" ++ dq ++ " to analyze code quality").

Definition connectRepository (self : cli) (opts : options) : M unit :=
  log ("🔗 Connecting to repository..." ++ nl);;
  present ← existsSync (configFile self);
  (if negb present then throw not_initialized else mret tt);;
  config ← read_json (configFile self);
  repository ←
    (if truthy (opts !! "repo") then mret (opts !! "repo")
     else lift (get config "repository"));
  delay 1000;;
  log "📡 Establishing connection...";;
  delay 1500;;
  log "🔍 Analyzing repository structure...";;
  delay 1000;;
  log "⚙️ Setting up webhooks...";;
  delay 800;;
  log ("✅ Successfully connected to " ++ to_string_opt repository);;
  log ("🎯 Repository analysis complete" ++ nl);;
  log "📊 Repository Stats:";;
  log "├── Languages: JavaScript, JSX, CSS, HTML";;
  log "├── Framework: React + Vite";;
  log "├── Dependencies: 11 production, 8 development";;
  log "├── Files: ~25 source files";;
  log ("└── Lines of code: ~2,450" ++ nl);;
  config ← lift (set config "connected" (JBool true));
  t ← date_now;
  config ← lift (set config "connectedAt" (JStr (Clock.toISOString t)));
  write_json (configFile self) config.

(** The [switch] of [runScan]: the findings printed for a scan type. *)
Definition scan_findings (scanType : json) : list string :=
  if is_string scanType "dependencies" then
      ["  ✅ All dependencies up to date";
       "  📦 11 production dependencies checked"]
  else if is_string scanType "vulnerabilities" then
      ["  ⚠️  1 medium severity vulnerability found";
       "  📋 CVE-2024-1234 in axios package";
       "  🔧 Fix available: Update to axios@1.7.0"]
  else if is_string scanType "secrets" then
      ["  ✅ No exposed secrets detected";
       "  🔐 API keys properly secured in .env"]
  else [].

Definition runScan (self : cli) (opts : options) : M unit :=
  log ("🛡️ Running security scan..." ++ nl);;
  connected ← isProjectConnected self;
  (if negb connected then throw not_connected else mret tt);;
  let scanTypes :=
    match opts !! "type" with
    | Some t => if truthy (Some t) then [t]
                else [JStr "dependencies"; JStr "vulnerabilities"; JStr "secrets"]
    | None => [JStr "dependencies"; JStr "vulnerabilities"; JStr "secrets"]
    end in
  forEach (fun scanType =>
    log ("🔍 Scanning for " ++ to_string scanType ++ "...");;
    delay 2000;;
    forEach log (scan_findings scanType);;
    log "") scanTypes;;
  log "📊 Security Scan Summary:";;
  log "├── Security Score: 8.5/10";;
  log "├── Vulnerabilities: 1 medium";;
  log "├── Secrets: 0 exposed";;
  log ("└── Recommendations: 2 available" ++ nl);;
  if truthy (opts !! "fix") then
    log "🔧 Auto-fixing issues...";;
    delay 3000;;
    log "✅ Security issues resolved automatically"
  else mret tt.

(** The [switch] of [analyzeCode]. *)
Definition analysis_findings (analysisType : json) : list string :=
  if is_string analysisType "quality" then
      ["  📈 Code Quality Score: 8.2/10";
       "  🎯 Maintainability Index: 85";
       "  🔄 Cyclomatic Complexity: 3.2 (Good)"]
  else if is_string analysisType "performance" then
      ["  ⚡ Performance Score: 7.8/10";
       "  📦 Bundle size: 245KB (Optimizable)";
       "  🚀 Suggestions: Code splitting, lazy loading"]
  else if is_string analysisType "maintainability" then
      ["  🔧 Maintainability: 88/100";
       "  📝 Documentation: 65% coverage";
       "  🧪 Test Coverage: 72%"]
  else if is_string analysisType "accessibility" then
      ["  ♿ Accessibility Score: 9.1/10";
       "  🏷️ ARIA labels: Well implemented";
       "  🎨 Color contrast: Excellent"]
  else [].

Definition analyzeCode (self : cli) (opts : options) : M unit :=
  log ("📊 Analyzing code quality..." ++ nl);;
  connected ← isProjectConnected self;
  (if negb connected then throw not_connected else mret tt);;
  let analysisTypes :=
    match opts !! "type" with
    | Some t => if truthy (Some t) then [t]
                else [JStr "quality"; JStr "performance";
                      JStr "maintainability"; JStr "accessibility"]
    | None => [JStr "quality"; JStr "performance";
               JStr "maintainability"; JStr "accessibility"]
    end in
  forEach (fun analysisType =>
    log ("🔍 Analyzing " ++ to_string analysisType ++ "...");;
    delay 1500;;
    forEach log (analysis_findings analysisType);;
    log "") analysisTypes;;
  log "🤖 AI Recommendations:";;
  log "├── Add PropTypes for better type safety";;
  log "├── Implement React.memo for performance";;
  log "├── Add error boundaries for robustness";;
  log ("└── Consider adding integration tests" ++ nl).

(** The object literal [reportData], with its one varying field. *)
Definition reportData (timestamp : string) : gmap string json :=
  <["timestamp" := JStr timestamp]>
  (<["project" := JStr "FER-PE"]>
  (<["repository" := JStr "github.com/MyNameIsBof/lab3"]>
  (<["overall_score" := JNum 83 1]>
  (<["security" := JObj
       (<["score" := JNum 85 1]>
       (<["vulnerabilities" := JNum 1 0]>
       (<["severity" := JStr "Medium"]> ∅)))]>
  (<["quality" := JObj
       (<["score" := JNum 82 1]>
       (<["maintainability" := JNum 85 0]>
       (<["complexity" := JNum 32 1]>
       (<["test_coverage" := JNum 72 0]> ∅))))]>
  (<["performance" := JObj
       (<["score" := JNum 78 1]>
       (<["bundle_size" := JStr "245KB"]>
       (<["suggestions" := JNum 3 0]> ∅)))]>
  (<["accessibility" := JObj
       (<["score" := JNum 91 1]>
       (<["compliance" := JStr "WCAG 2.1 AA"]> ∅))]> ∅))))))).

(** [reportData.a.b] inside a template literal. *)
Definition field (o : gmap string json) (a b : string) : string :=
  match o !! a with
  | Some (JObj kv) => to_string_opt (kv !! b)
  | _ => "undefined"
  end.

(** The text rendering of the report, the [else] branch. *)
Definition report_lines (data : gmap string json) (generated : string) : list string :=
  [nl ++ repeat_str "=" 60;
   "           📋 CODEANT AI ANALYSIS REPORT";
   repeat_str "=" 60;
   "Project: " ++ to_string_opt (data !! "project");
   "Generated: " ++ generated;
   "Overall Score: " ++ to_string_opt (data !! "overall_score") ++ "/10" ++ nl;
   "🛡️  SECURITY ANALYSIS";
   repeat_str "─" 30;
   "Score: " ++ field data "security" "score" ++ "/10";
   "Vulnerabilities: " ++ field data "security" "vulnerabilities" ++
     " (" ++ field data "security" "severity" ++ ")";
   "Status: Action required" ++ nl;
   "📊 QUALITY METRICS";
   repeat_str "─" 30;
   "Quality Score: " ++ field data "quality" "score" ++ "/10";
   "Maintainability: " ++ field data "quality" "maintainability" ++ "/100";
   "Complexity: " ++ field data "quality" "complexity" ++ " (Good)";
   "Test Coverage: " ++ field data "quality" "test_coverage" ++ "%" ++ nl;
   "⚡ PERFORMANCE";
   repeat_str "─" 30;
   "Score: " ++ field data "performance" "score" ++ "/10";
   "Bundle Size: " ++ field data "performance" "bundle_size";
   "Optimizations: " ++ field data "performance" "suggestions" ++ " available" ++ nl;
   "♿ ACCESSIBILITY";
   repeat_str "─" 30;
   "Score: " ++ field data "accessibility" "score" ++ "/10";
   "Compliance: " ++ field data "accessibility" "compliance" ++ nl;
   "🎯 NEXT STEPS";
   repeat_str "─" 30;
   "1. Update axios dependency to fix security vulnerability";
   "2. Implement code splitting to reduce bundle size";
   "3. Add more unit tests to improve coverage";
   "4. Consider adding PropTypes for type safety" ++ nl].

(** [options.format === 'json' || options.json] as a condition. *)
Definition wants_json (opts : options) : bool :=
  match opts !! "format" with
  | Some (JStr "json") => true
  | _ => truthy (opts !! "json")
  end.

Definition generateReport (self : cli) (opts : options) : M unit :=
  log ("📋 Generating comprehensive report..." ++ nl);;
  connected ← isProjectConnected self;
  (if negb connected then throw not_connected else mret tt);;
  log "📊 Collecting analysis data...";;
  delay 2000;;
  log "🛡️ Gathering security metrics...";;
  delay 1500;;
  log "🤖 Processing AI insights...";;
  delay 1000;;
  log "📈 Compiling quality metrics...";;
  delay 1200;;
  t ← date_now;
  let data := reportData (Clock.toISOString t) in
  t' ← date_now;
  let reportFile := "codeant-report-" ++ pretty t' ++ ".json" in
  if wants_json opts then
    write_json (join (projectRoot self) reportFile) (JObj data);;
    log ("✅ JSON report saved to: " ++ reportFile)
  else
    generated ← toLocaleString t;
    forEach log (report_lines data generated).

Definition showConfig (self : cli) : M unit :=
  present ← existsSync (configFile self);
  if negb present then
    log ("❌ No configuration found. Run " ++ dq ++ "init" ++ dq ++ " to create one.")
  else
    config ← read_json (configFile self);
    log ("⚙️  CodeAnt AI Configuration" ++ nl);;
    text ← json_text config;
    log text.

Definition help_text : string := "
🤖 CodeAnt AI CLI Demo - Comprehensive Code Analysis Tool

USAGE:
  node codeant-demo.js <command> [options]

COMMANDS:
  init                     Initialize CodeAnt AI in current project
  connect [--repo <url>]   Connect to repository
  scan [--type <type>]     Run security scan
                          Types: dependencies, vulnerabilities, secrets
  analyze [--type <type>]  Analyze code quality
                          Types: quality, performance, maintainability, accessibility
  test [--category <cat>]  Run test cases to demonstrate vulnerabilities
                          Categories: security, performance, quality, accessibility
  demo [--interactive]     Run interactive demonstration
  report [--format json]   Generate comprehensive report
  config                   Show current configuration
  help                     Show this help message

EXAMPLES:
  node codeant-demo.js init
  node codeant-demo.js connect --repo github.com/MyNameIsBof/lab3
  node codeant-demo.js scan --type vulnerabilities
  node codeant-demo.js analyze --type performance
  node codeant-demo.js test --category security --fix
  node codeant-demo.js demo --interactive
  node codeant-demo.js report --format json

TEST SCENARIOS:
  npm run codeant:test-security    # Test security vulnerabilities
  npm run codeant:test-performance # Test performance issues
  npm run codeant:test-quality     # Test code quality
  npm run codeant:demo             # Run interactive demo

OPTIONS:
  --repo <url>            Repository URL
  --type <type>           Analysis type
  --category <category>   Test category
  --format <format>       Output format (json)
  --fix                   Auto-fix issues where possible
  --interactive           Enable interactive mode

For more information, visit: https://codeant.ai
    ".

Definition showHelp : M unit := log help_text.

(** One entry of [issues]. *)
Record issue : Type := Issue {
  severity : string;
  title : string;
  file : string;
  line : Z;
  solution : string
}.

(** The [results] object of [runCategoryTests], also the shape of
    [testResults]. *)
Record results : Type := Results {
  total : Z;
  passed : Z;
  failed : Z;
  issues : list issue
}.

Definition runCategoryTests (category : json) : results :=
  if is_string category "security" then
      Results 15 7 8
        [Issue "High" "SQL Injection Vulnerability"
           "src/components/demo/VulnerableTestCases.js" 4
           "Use parameterized queries";
         Issue "High" "XSS Vulnerability"
           "src/components/demo/VulnerableTestCases.js" 10
           "Sanitize user input with DOMPurify";
         Issue "Critical" "Hardcoded API Keys"
           "src/components/demo/VulnerableTestCases.js" 20
           "Move secrets to environment variables"]
  else if is_string category "performance" then
      Results 8 5 3
        [Issue "Medium" "Memory Leak in useEffect"
           "src/components/demo/ProblematicComponent.jsx" 20
           "Add cleanup function to useEffect"]
  else if is_string category "quality" then
      Results 12 5 7
        [Issue "Low" "Missing PropTypes validation"
           "src/components/demo/ProblematicComponent.jsx" 10
           "Add PropTypes for component props"]
  else if is_string category "accessibility" then
      Results 6 4 2
        [Issue "Medium" "Missing ARIA labels"
           "src/components/demo/ProblematicComponent.jsx" 85
           "Add proper ARIA labels and semantic HTML"]
  else Results 0 0 0 [].

(** The [for] loop of [runTestCases], threading [testResults]. *)
Fixpoint test_loop (categories : list json) (acc : results) : M results :=
  match categories with
  | [] => mret acc
  | category :: rest =>
      log ("🔍 Testing " ++ to_string category ++ " vulnerabilities...");;
      delay 1500;;
      let r := runCategoryTests category in
      let acc' := Results (total acc + total r) (passed acc + passed r)
                          (failed acc + failed r) (issues acc ++ issues r) in
      log ("  📊 " ++ to_string category ++ ": " ++ pretty (passed r) ++ "/" ++
           pretty (total r) ++ " tests passed" ++ nl);;
      test_loop rest acc'
  end.

(** The callback of [forEach((issue, index) => ...)]. *)
Fixpoint issue_lines (index : Z) (l : list issue) : list string :=
  match l with
  | [] => []
  | i :: rest =>
      [pretty (index + 1) ++ ". " ++ severity i ++ " - " ++ title i;
       "   📁 " ++ file i ++ ":" ++ pretty (line i);
       "   💡 " ++ solution i ++ nl] ++ issue_lines (index + 1) rest
  end.

Definition runTestCases (self : cli) (opts : options) : M unit :=
  log ("🧪 Running CodeAnt AI Test Cases..." ++ nl);;
  connected ← isProjectConnected self;
  (if negb connected then throw not_connected else mret tt);;
  let testCategories :=
    match opts !! "category" with
    | Some c => if truthy (Some c) then [c]
                else [JStr "security"; JStr "performance";
                      JStr "quality"; JStr "accessibility"]
    | None => [JStr "security"; JStr "performance";
               JStr "quality"; JStr "accessibility"]
    end in
  testResults ← test_loop testCategories (Results 0 0 0 []);
  log "📋 Test Results Summary:";;
  log (repeat_str "─" 40);;
  log ("Total Tests: " ++ pretty (total testResults));;
  log ("✅ Passed: " ++ pretty (passed testResults));;
  log ("❌ Failed: " ++ pretty (failed testResults));;
  log ("🔍 Issues Found: " ++ pretty (length (issues testResults)) ++ nl);;
  (if bool_decide (issues testResults = []) then mret tt
   else
     log "🚨 Critical Issues Detected:";;
     forEach log (issue_lines 0 (take 5 (issues testResults))));;
  if truthy (opts !! "fix") then
    log "🔧 Auto-fixing critical issues...";;
    delay 3000;;
    log "✅ Fixed 8/10 issues automatically";;
    log "⚠️ 2 issues require manual intervention"
  else mret tt.

Definition runDemo (opts : options) : M unit :=
  log ("🎬 CodeAnt AI Interactive Demo" ++ nl);;
  log "🚀 Welcome to CodeAnt AI - Intelligent Code Analysis";;
  log ("This demo shows how CodeAnt AI helps improve your code" ++ nl);;
  delay 2000;;
  log "📁 Analyzing project structure...";;
  delay 1500;;
  log "  ✅ React application detected";;
  log "  ✅ TypeScript/JavaScript files found";;
  log ("  ✅ Package.json configuration loaded" ++ nl);;
  log "🔍 Running comprehensive analysis...";;
  delay 2000;;
  log "🛡️ Security Analysis:";;
  delay 1000;;
  log "  ❌ Found 8 security vulnerabilities";;
  log "  ⚠️ 3 High, 3 Medium, 2 Low severity";;
  log ("  🔧 All issues have automated fixes available" ++ nl);;
  log "📊 Code Quality Analysis:";;
  delay 1000;;
  log "  📈 Quality Score: 6.8/10";;
  log "  🔄 Cyclomatic Complexity: 4.2 (Moderate)";;
  log "  🧪 Test Coverage: 65%";;
  log ("  📝 Documentation: 40%" ++ nl);;
  log "⚡ Performance Analysis:";;
  delay 1000;;
  log "  🚀 Bundle Size: 245KB";;
  log "  ⏱️ Load Time: 2.3s";;
  log "  💾 Memory Usage: 45MB";;
  log ("  🎯 5 optimization opportunities found" ++ nl);;
  log "🤖 AI Recommendations:";;
  delay 1000;;
  log "  1. Implement code splitting to reduce bundle size";;
  log "  2. Add PropTypes for better type safety";;
  log "  3. Use React.memo for expensive components";;
  log "  4. Add error boundaries for better error handling";;
  log ("  5. Implement lazy loading for images" ++ nl);;
  (if truthy (opts !! "interactive") then
     log "🔧 Would you like to auto-fix these issues? (y/n)";;
     log ("📋 Type " ++ dq ++ "npm run codeant:test --fix" ++ dq ++ " to apply fixes")
   else mret tt);;
  log "✨ Demo completed! Your code is now 40% more secure and performant.".

(** [args[2] || 'help'] *)
Definition command_of (args : list string) : string :=
  match args !! 2%nat with
  | Some c => if String.eqb c "" then "help" else c
  | None => "help"
  end.

(** The [switch] of [run]. *)
Definition dispatch (self : cli) (command : string) (opts : options) : M unit :=
  if String.eqb command "init" then initProject self opts
  else if String.eqb command "connect" then connectRepository self opts
  else if String.eqb command "scan" then runScan self opts
  else if String.eqb command "analyze" then analyzeCode self opts
  else if String.eqb command "test" then runTestCases self opts
  else if String.eqb command "demo" then runDemo opts
  else if String.eqb command "report" then generateReport self opts
  else if String.eqb command "config" then showConfig self
  else showHelp.

(** [run(args)]: the result is the exit status of the process, 1 after
    [process.exit(1)] in the handler and 0 otherwise. *)
Definition run (self : cli) (args : list string) (w : world) : Z * world :=
  let command := command_of args in
  let opts := parseOptions (drop 3 args) in
  match dispatch self command opts w with
  | (inr _, w') => (0, w')
  | (inl error, w') => (1, snd (log_error ("❌ Error: " ++ message error) w'))
  end.

End CLI.

(** ** The report service ([src/services/codeantAI.js])

    The class logs to the console as well; that output plays no part
    in any returned value and is left out here. *)

Module Service.
Import JS.

(** The ambient world of the service: the values that successive calls
    of [Math.random()] return, how many were taken, and the clock.  A
    random value is kept as its numerator [u] over [2^53], so it
    stands for [u / 2^53] with [0 <= u < 2^53]. *)
Record world : Type := World {
  stream : nat -> Z;
  drawn : nat;
  now : Z
}.

Definition M (A : Type) : Type := world -> A * world.

#[global] Instance M_ret : MRet M := fun A a w => (a, w).
#[global] Instance M_bind : MBind M := fun A B f c w =>
  let '(a, w') := c w in f a w'.

(** [Math.random()] *)
Definition random : M Z := fun w =>
  (stream w (drawn w), World (stream w) (S (drawn w)) (now w)).

(** [Date.now()] *)
Definition date_now : M Z := fun w => (now w, w).

Definition set_clock (t : Z) : M unit := fun w =>
  (tt, World (stream w) (drawn w) t).

(** Binary64 arithmetic on the numbers that occur.  A double that is
    a whole number [n >= 0] of units [2^-53] is kept as [n].  The
    double nearest to such a quantity keeps its 53 leading bits: with
    [s] bits too many it is a multiple of [2^s], the nearer of the two
    neighbours and, half-way between them, the even one. *)
Definition round53 (n : Z) : Z :=
  let s := Z.max 0 (Z.log2 n - 52) in
  let q := n / 2 ^ s in
  let r := n mod 2 ^ s in
  if 2 * r <? 2 ^ s then q * 2 ^ s
  else if 2 ^ s <? 2 * r then (q + 1) * 2 ^ s
  else if Z.even q then q * 2 ^ s else (q + 1) * 2 ^ s.

(** [Math.random() * k] for the value [u] and a whole [k], in units of
    [2^-53]: the exact product [k * u], rounded. *)
Definition times (k u : Z) : Z := round53 (k * u).

(** [Math.floor(Math.random() * k)] for the value [u]. *)
Definition floor_times (k u : Z) : Z := times k u / 2 ^ 53.

(** [setTimeout(resolve, 1000 + Math.random() * 2000)] for the value
    [u]: the sum is rounded once more, and the timer runs for the
    whole milliseconds of it. *)
Definition timeout (u : Z) : Z := round53 (1000 * 2 ^ 53 + times 2000 u) / 2 ^ 53.

(** [Math.random() > 0.5] for the value [u]. *)
Definition above_half (u : Z) : bool := 2 ^ 52 <? u.

(** An [async] method that awaits exactly one timer: [timer] is the
    part that runs at the call, up to the [await], and yields the
    delay of the timer in whole milliseconds; [resume] is the rest,
    run when the timer fires. *)
Record task (A : Type) : Type := Task {
  timer : M Z;
  resume : M A
}.
Arguments Task {A} _ _.
Arguments timer {A} _.
Arguments resume {A} _.

(** The result objects [{ success: true, ... }] and
    [{ success: false, error }]. *)
Inductive outcome (A : Type) : Type :=
  | Success (value : A)
  | Failure (error : string).
Arguments Success {A} _.
Arguments Failure {A} _.

Record Vulnerability : Type := {
  id : string;
  severity : string;
  package : option string;
  file : option string;
  description : string;
  fix_ : string
}.

Record Metrics : Type := {
  maintainabilityIndex : Z;
  cyclomaticComplexity : Z;
  testCoverage : Z;
  codeSmells : Z;
  technicalDebt : string
}.

Record AnalysisResults : Type := {
  totalFiles : Z;
  linesOfCode : Z;
  issuesFound : Z;
  suggestions : list string
}.

(** The [data] of a response of [simulateApiCall], one shape per
    endpoint. *)
Inductive response : Type :=
  | InitData (projectId status : string) (features : list string)
  | AnalysisData (analysisId : string) (results : AnalysisResults)
  | SecurityData (vulnerabilities : list Vulnerability) (securityScore : Z)
  | QualityData (metrics : Metrics) (qualityScore : Z).

(** The fields the sub-operations copy out of a response; a field the
    response lacks reads as [undefined]. *)
Record SecurityScan : Type := {
  vulnerabilities : option (list Vulnerability);
  securityScore : option Z
}.

Record QualityMetrics : Type := {
  metrics : option Metrics;
  qualityScore : option Z
}.

Record Analysis : Type := {
  analysisId : option string;
  results : option AnalysisResults
}.

Record Recommendation : Type := {
  category : string;
  priority : string;
  message : string;
  actions : list string
}.

(** A section of the report: the successful result itself, or the
    object [{ error: '...' }]. *)
Inductive section (A : Type) : Type :=
  | Populated (value : A)
  | ErrorMarker (error : string).
Arguments Populated {A} _.
Arguments ErrorMarker {A} _.

Record Report : Type := {
  timestamp : string;
  project : gmap string json;
  security : section SecurityScan;
  quality : section QualityMetrics;
  analysis : section Analysis;
  recommendations : list Recommendation
}.

(** The fields set by the constructor that the methods read. *)
Record client : Type := Client {
  apiKey : string;
  projectConfig : gmap string json
}.

Definition constructor (apiKey : string) (projectConfig : gmap string json) : client :=
  Client apiKey
    (projectConfig ∪
     (<["projectName" := JStr "FER-PE"]>
     (<["repository" := JStr "github.com/MyNameIsBof/lab3"]>
     (<["language" := JStr "javascript"]>
     (<["framework" := JStr "react"]> ∅))))).

Definition generateMockAnalysisResults : M AnalysisResults :=
  u ← random;
  mret {| totalFiles := 15;
          linesOfCode := 2450;
          issuesFound := floor_times 5 u + 2;
          suggestions :=
            ["Consider using React.memo for performance optimization";
             "Add PropTypes for better type checking";
             "Implement error boundaries for better error handling"] |}.

Definition generateMockVulnerabilities : M (list Vulnerability) :=
  let vulnerabilities :=
    [ {| id := "CVE-2024-1234";
         severity := "Medium";
         package := Some "axios";
         file := None;
         description := "Potential XSS vulnerability in request handling";
         fix_ := "Update to axios@1.7.0 or later" |};
      {| id := "CODEANT-SEC-001";
         severity := "Low";
         package := None;
         file := Some "src/components/AddStudent.jsx";
         description := "Missing input validation";
         fix_ := "Add input sanitization and validation" |} ] in
  u ← random;
  mret (if above_half u then vulnerabilities else []).

Definition generateMockQualityMetrics : M Metrics :=
  u1 ← random;
  u2 ← random;
  u3 ← random;
  u4 ← random;
  u5 ← random;
  mret {| maintainabilityIndex := floor_times 20 u1 + 80;
          cyclomaticComplexity := floor_times 5 u2 + 2;
          testCoverage := floor_times 30 u3 + 70;
          codeSmells := floor_times 3 u4;
          technicalDebt := pretty (floor_times 5 u5 + 1) ++ "h" |}.

(** [simulateApiCall(endpoint)]: the timer of [1000 + Math.random() *
    2000] ms, then the [switch]. *)
Definition simulateApiCall (endpoint : string) : task (exn + response) :=
  {| timer := u ← random; mret (timeout u);
     resume :=
       if String.eqb endpoint "/projects/init" then
         t ← date_now;
         mret (inr (InitData ("codeant_" ++ pretty t) "initialized"
                      ["security-scan"; "quality-analysis"; "ai-recommendations"]))
       else if String.eqb endpoint "/analysis/run" then
         t ← date_now;
         r ← generateMockAnalysisResults;
         mret (inr (AnalysisData ("analysis_" ++ pretty t) r))
       else if String.eqb endpoint "/security/scan" then
         v ← generateMockVulnerabilities;
         u ← random;
         mret (inr (SecurityData v (floor_times 3 u + 8)))
       else if String.eqb endpoint "/quality/metrics" then
         m ← generateMockQualityMetrics;
         u ← random;
         mret (inr (QualityData m (floor_times 2 u + 8)))
       else mret (inl (Error ("Unknown endpoint: " ++ endpoint))) |}.

(** [Promise.all] of three such calls made in one tick.  Each runs up
    to its [await] in call order; the timers then fire in the order of
    their delays, timers of equal delay in the order they were set;
    each continuation sees the clock of its own expiry. *)
Definition join3 {A B C : Type} (ta : task A) (tb : task B) (tc : task C)
  : M (A * B * C) :=
  t0 ← date_now;
  da ← timer ta;
  db ← timer tb;
  dc ← timer tc;
  let ra := set_clock (t0 + da);; resume ta in
  let rb := set_clock (t0 + db);; resume tb in
  let rc := set_clock (t0 + dc);; resume tc in
  if da <=? db then
    if db <=? dc then a ← ra; b ← rb; c ← rc; mret (a, b, c)
    else if da <=? dc then a ← ra; c ← rc; b ← rb; mret (a, b, c)
    else c ← rc; a ← ra; b ← rb; mret (a, b, c)
  else
    if da <=? dc then b ← rb; a ← ra; c ← rc; mret (a, b, c)
    else if db <=? dc then b ← rb; c ← rc; a ← ra; mret (a, b, c)
    else c ← rc; b ← rb; a ← ra; mret (a, b, c).

(** [securityScan.vulnerabilities?.length > 0] *)
Definition has_vulnerabilities (s : SecurityScan) : option nat :=
  match vulnerabilities s with
  | Some (v :: l) => Some (length (v :: l))
  | _ => None
  end.

(** [qualityMetrics.qualityScore < 8] *)
Definition below_threshold (q : QualityMetrics) : bool :=
  match qualityScore q with
  | Some z => z <? 8
  | None => false
  end.

Definition securityRecommendation (n : nat) : Recommendation :=
  {| category := "Security";
     priority := "High";
     message := "Found " ++ pretty n ++
                " security vulnerabilities. Immediate attention required.";
     actions := ["Update dependencies with known vulnerabilities";
                 "Implement input validation";
                 "Add authentication middleware"] |}.

Definition qualityRecommendation : Recommendation :=
  {| category := "Code Quality";
     priority := "Medium";
     message := "Code quality score below threshold. Consider refactoring.";
     actions := ["Add more unit tests";
                 "Reduce code complexity";
                 "Improve documentation"] |}.

Definition performanceRecommendation : Recommendation :=
  {| category := "Performance";
     priority := "Low";
     message := "Optimize bundle size and loading performance.";
     actions := ["Implement code splitting";
                 "Optimize images";
                 "Add lazy loading"] |}.

Definition generateRecommendations
    (securityScan : outcome SecurityScan) (qualityMetrics : outcome QualityMetrics)
  : list Recommendation :=
  let recommendations : list Recommendation := [] in
  let recommendations :=
    match securityScan with
    | Success s =>
        match has_vulnerabilities s with
        | Some n => (recommendations ++ [securityRecommendation n])%list
        | None => recommendations
        end
    | Failure _ => recommendations
    end in
  let recommendations :=
    match qualityMetrics with
    | Success q =>
        if below_threshold q then (recommendations ++ [qualityRecommendation])%list
        else recommendations
    | Failure _ => recommendations
    end in
  (recommendations ++ [performanceRecommendation])%list.

(** [r.success ? r : { error: text }] *)
Definition section_of {A : Type} (r : outcome A) (text : string) : section A :=
  match r with
  | Success a => Populated a
  | Failure _ => ErrorMarker text
  end.

Section Methods.

(** The method [this.simulateApiCall] as the other methods call it.
    The class supplies [simulateApiCall]; the methods below are
    written against any implementation, as a subclass or a test double
    may put another in its place. *)
Variable api : string -> task (exn + response).

Definition getSecurityScan : task (outcome SecurityScan) :=
  {| timer := timer (api "/security/scan");
     resume :=
       r ← resume (api "/security/scan");
       mret (match r with
             | inr data =>
                 Success
                   {| vulnerabilities :=
                        match data with SecurityData v _ => Some v | _ => None end;
                      securityScore :=
                        match data with SecurityData _ s => Some s | _ => None end |}
             | inl error => Failure (JS.message error)
             end) |}.

Definition getQualityMetrics : task (outcome QualityMetrics) :=
  {| timer := timer (api "/quality/metrics");
     resume :=
       r ← resume (api "/quality/metrics");
       mret (match r with
             | inr data =>
                 Success
                   {| metrics :=
                        match data with QualityData m _ => Some m | _ => None end;
                      qualityScore :=
                        match data with QualityData _ s => Some s | _ => None end |}
             | inl error => Failure (JS.message error)
             end) |}.

(** [analyzeCode()]; the request body it builds is not read by
    [simulateApiCall]. *)
Definition analyzeCode : task (outcome Analysis) :=
  {| timer := timer (api "/analysis/run");
     resume :=
       r ← resume (api "/analysis/run");
       mret (match r with
             | inr data =>
                 Success
                   {| analysisId :=
                        match data with AnalysisData i _ => Some i | _ => None end;
                      results :=
                        match data with AnalysisData _ x => Some x | _ => None end |}
             | inl error => Failure (JS.message error)
             end) |}.

(** [generateReport()].  The three results are always objects and
    nothing else in the [try] block throws, so its [catch] branch is
    never taken. *)
Definition generateReport (self : client) : M (outcome Report) :=
  '(securityScan, qualityMetrics, analysisResults) ←
    join3 getSecurityScan getQualityMetrics analyzeCode;
  t ← date_now;
  let report :=
    {| timestamp := Clock.toISOString t;
       project := projectConfig self;
       security := section_of securityScan "Failed to fetch security data";
       quality := section_of qualityMetrics "Failed to fetch quality data";
       analysis := section_of analysisResults "Failed to run analysis";
       recommendations := generateRecommendations securityScan qualityMetrics |} in
  mret (Success report).

End Methods.

End Service.

(** ** Statements about the command-line tool

    Predicates on the persisted state, the merge and the option
    parsing as the specification words them, and sample worlds. *)

Module CLISpec.
Import JS CLI.

(** The persisted state as the gate sees it: closed when the config
    file is absent, or holds a JSON value whose [connected] property
    is not [true]. *)
Definition gate_closed (self : cli) (files : gmap string content) : bool :=
  match files !! configFile self with
  | None => true
  | Some NotJson => false
  | Some (Json JNull) => false
  | Some (Json (JObj kv)) =>
      match kv !! "connected" with
      | Some (JBool true) => false
      | _ => true
      end
  | Some (Json _) => true
  end.

(** Open: the config file holds a record whose [connected] is [true]. *)
Definition gate_open (self : cli) (files : gmap string content) : bool :=
  match files !! configFile self with
  | Some (Json (JObj kv)) =>
      match kv !! "connected" with
      | Some (JBool true) => true
      | _ => false
      end
  | _ => false
  end.

(** The merge as the specification words it: override wins per key,
    except that [rules] and [thresholds] are merged key by key. *)
Definition merge_nested (key : string) (defaults overrides merged : gmap string json)
  : gmap string json :=
  match defaults !! key, overrides !! key with
  | Some (JObj d), Some (JObj o) => <[key := JObj (o ∪ d)]> merged
  | _, _ => merged
  end.

(** The whole merge in those words. *)
Definition spec_merge (defaults overrides : gmap string json) : gmap string json :=
  merge_nested "rules" defaults overrides
    (merge_nested "thresholds" defaults overrides (overrides ∪ defaults)).

(** The configuration held by the config file, when it is an object. *)
Definition persisted (self : cli) (w : world) : option (gmap string json) :=
  match fs w !! configFile self with
  | Some (Json (JObj kv)) => Some kv
  | _ => None
  end.

(** A host, and an empty directory with nothing on the console yet. *)
Definition quiet_host : host := Host (fun _ => "") (fun _ => "").

Definition fresh_world : world := World ∅ 1700000000000 [] [] quiet_host.

(** The invariant on a configuration record: [connected = true]
    implies that [connectedAt] is set, that is, holds a non-empty
    string. *)
Definition config_ok (config : gmap string json) : bool :=
  match config !! "connected" with
  | Some (JBool true) =>
      match config !! "connectedAt" with
      | Some (JStr stamp) => negb (String.eqb stamp "")
      | _ => false
      end
  | _ => true
  end.

(** The invariant on the persisted state: no config file, or a config
    file that holds a record satisfying [config_ok]. *)
Definition persisted_ok (self : cli) (files : gmap string content) : bool :=
  match files !! configFile self with
  | None => true
  | Some (Json (JObj config)) => config_ok config
  | Some _ => false
  end.

(** The file systems reachable from one without a config file through
    [init] and [connect], with any overrides and options, run in any
    world, successful or not. *)
Inductive reachable (self : cli) : gmap string content -> Prop :=
  | reach_start (files : gmap string content) :
      files !! configFile self = None ->
      reachable self files
  | reach_init (w w' : world) (opts : options) (r : exn + unit) :
      reachable self (fs w) ->
      initProject self opts w = (r, w') ->
      reachable self (fs w')
  | reach_connect (w w' : world) (opts : options) (r : exn + unit) :
      reachable self (fs w) ->
      connectRepository self opts w = (r, w') ->
      reachable self (fs w').

(** The lines [report] logs before it builds the report. *)
Definition report_progress : list string :=
  ["📋 Generating comprehensive report..." ++ nl;
   "📊 Collecting analysis data...";
   "🛡️ Gathering security metrics...";
   "🤖 Processing AI insights...";
   "📈 Compiling quality metrics..."].

(** A connected project in an otherwise empty directory. *)
Definition connected_world : world :=
  World {[ configFile (constructor "/srv/lab3") :=
             Json (JObj (<["connected" := JBool true]>
                           (defaultConfig (constructor "/srv/lab3")))) ]}
        1700000000000 [] [] quiet_host.

(** How [--type t] shows in a template literal: an empty [t] became
    [true] in [parseOptions]. *)
Definition shown_type (t : string) : string := to_string (value_or_true (Some t)).

(** Option parsing as the specification words it: every token that
    begins with two dashes is a flag; its value is the token right
    after it when that is not a flag itself, and [true] when no value
    follows. *)
Fixpoint spec_parseOptions (args : list string) : options :=
  match args with
  | [] => ∅
  | arg :: rest =>
      if startsWith arg "--" then
        match rest with
        | [] => <[substring_from 2 arg := JBool true]> ∅
        | next :: rest' =>
            if startsWith next "--"
            then <[substring_from 2 arg := JBool true]> (spec_parseOptions rest)
            else <[substring_from 2 arg := JStr next]> (spec_parseOptions rest')
        end
      else spec_parseOptions rest
  end.

End CLISpec.

(** ** Statements about the report service *)

Module ServiceSpec.
Import JS Service.

(** A report with the two values read off the clock blanked: the
    [timestamp] and the [analysisId]. *)
Definition without_clock (r : outcome Report) : outcome Report :=
  match r with
  | Success report =>
      Success
        {| timestamp := "";
           project := project report;
           security := security report;
           quality := quality report;
           analysis :=
             match analysis report with
             | Populated a => Populated {| analysisId := None; results := results a |}
             | ErrorMarker e => ErrorMarker e
             end;
           recommendations := recommendations report |}
  | Failure e => Failure e
  end.

(** An implementation of [simulateApiCall] whose security endpoint
    throws. *)
Definition security_down (endpoint : string) : task (exn + response) :=
  if String.eqb endpoint "/security/scan"
  then {| timer := timer (simulateApiCall endpoint);
          resume := mret (inl (Error "Network Error")) |}
  else simulateApiCall endpoint.

(** A world whose random source is pinned to the constant 0. *)
Definition pinned_world (position : nat) (t : Z) : world :=
  World (fun _ => 0) position t.

(** A world whose random source is pinned to the largest value below
    1, [1 - 2^-53]. *)
Definition pinned_high_world (position : nat) (t : Z) : world :=
  World (fun _ => 2 ^ 53 - 1) position t.

End ServiceSpec.

(** ** What a command may change

    A frame around a computation: the error stream and the host are
    as before, the clock has not gone back, the standard output has
    only grown, and every file outside [allowed] is as before. *)

Module CLIFrame.
Import JS CLI.

Definition frame (allowed : string -> Prop) (w w' : world) : Prop :=
  err w' = err w /\
  env w' = env w /\
  now w <= now w' /\
  out w `prefix_of` out w' /\
  forall path, ~ allowed path -> fs w' !! path = fs w !! path.

(** A computation stays within the frame, whatever it returns or
    throws. *)
Definition within (allowed : string -> Prop) {A : Type} (c : M A) : Prop :=
  forall w r w', c w = (r, w') -> frame allowed w w'.

(** No file at all. *)
Definition nothing : string -> Prop := fun _ => False.

(** The config file only. *)
Definition config_only (self : cli) : string -> Prop :=
  fun path => path = configFile self.

(** A report file of the project directory only. *)
Definition reports_only (self : cli) : string -> Prop :=
  fun path =>
    exists t : Z, path = join (projectRoot self) ("codeant-report-" ++ pretty t ++ ".json").

(** A computation returns in every world: it never throws. *)
Definition returns {A : Type} (c : M A) : Prop :=
  forall w, exists a w', c w = (inr a, w').

(** The value a well-formed pair list gives a flag: the value of the
    last pair that names it. *)
Definition pairs_to_args (pairs : list (string * string)) : list string :=
  concat (List.map (fun kv => ["--" ++ kv.1; kv.2]) pairs).

(** The shape of every value of an option bag. *)
Definition flag_value (v : json) : Prop :=
  v = JBool true \/ exists s, v = JStr s /\ s <> "".

End CLIFrame.

(** ** More of the service, and its caller

    The method [initializeProject], a single awaited call, and the two
    badge functions of the dashboard component that shows a report. *)

Module ServiceCalls.
Import JS Service.

(** [await t] for one call on its own: the clock moves to the expiry
    of its timer. *)
Definition await {A : Type} (t : task A) : M A :=
  t0 ← date_now;
  d ← timer t;
  set_clock (t0 + d);;
  resume t.

(** The result object of [initializeProject]. *)
Record Initialized : Type := {
  projectId : option string;
  message : string
}.

Definition initializeProject (api : string -> task (exn + response))
  : task (outcome Initialized) :=
  {| timer := timer (api "/projects/init");
     resume :=
       r ← resume (api "/projects/init");
       mret (match r with
             | inr data =>
                 Success
                   {| projectId :=
                        match data with InitData i _ _ => Some i | _ => None end;
                      message := "Project successfully initialized with CodeAnt AI" |}
             | inl error => Failure (JS.message error)
             end) |}.

(** Every value the random source returns lies in [[0, 1)]. *)
Definition in_range (w : world) : Prop :=
  forall i : nat, 0 <= stream w i < 2 ^ 53.

(** [getSecurityBadgeVariant(score)]; a comparison with [undefined] is
    false. *)
Definition getSecurityBadgeVariant (score : option Z) : string :=
  match score with
  | Some z => if 9 <=? z then "success" else if 7 <=? z then "warning" else "danger"
  | None => "danger"
  end.

(** [getQualityBadgeVariant(score)] *)
Definition getQualityBadgeVariant (score : option Z) : string :=
  match score with
  | Some z => if 8 <=? z then "success" else if 6 <=? z then "warning" else "danger"
  | None => "danger"
  end.

(** [report.security.securityScore] and [report.quality.qualityScore]
    as the dashboard reads them: [undefined] on an error marker. *)
Definition shown_security_score (report : Report) : option Z :=
  match security report with
  | Populated s => securityScore s
  | ErrorMarker _ => None
  end.

Definition shown_quality_score (report : Report) : option Z :=
  match quality report with
  | Populated q => qualityScore q
  | ErrorMarker _ => None
  end.

End ServiceCalls.

(** * Checks of the JavaScript fragment *)

Example iso_epoch : Clock.iso 0 = "1970-01-01T00:00:00.000Z".
Proof. vm_compute. reflexivity. Qed.

Example iso_2023 : Clock.iso 1700000000000 = "2023-11-14T22:13:20.000Z".
Proof. vm_compute. reflexivity. Qed.

Example iso_before_epoch : Clock.iso (-1) = "1969-12-31T23:59:59.999Z".
Proof. vm_compute. reflexivity. Qed.

Example iso_leap_day : Clock.iso 1709210096789 = "2024-02-29T12:34:56.789Z".
Proof. vm_compute. reflexivity. Qed.

Example num_to_string_8_3 : JS.num_to_string 83 1 = "8.3".
Proof. vm_compute. reflexivity. Qed.

Example to_string_array :
  JS.to_string (JS.JArr [JS.JNum 1 0; JS.JNull; JS.JStr "a"]) = "1,,a".
Proof. vm_compute. reflexivity. Qed.

(** The rounding of binary64: [(1 - 2^-53) * 2000] is the double just
    below 2000, and adding 1000 to it gives 3000; [Math.random() * 3]
    reaches 2 at the value [6004799503160661 / 2^53], a third of the
    way below the exact bound. *)
Example timeout_of_the_largest_value : Service.timeout (2 ^ 53 - 1) = 3000.
Proof. vm_compute. reflexivity. Qed.

Example times_2000_of_the_largest_value :
  Service.times 2000 (2 ^ 53 - 1) = 2000 * 2 ^ 53 - 2 ^ 11.
Proof. vm_compute. reflexivity. Qed.

Example timeout_of_zero : Service.timeout 0 = 1000.
Proof. vm_compute. reflexivity. Qed.

Example timeout_of_a_half : Service.timeout (2 ^ 52) = 2000.
Proof. vm_compute. reflexivity. Qed.

Example timeout_rounds_up_to_2001 :
  1000 * 2 ^ 53 + 2000 * 4508103226997866 < 2001 * 2 ^ 53 /\
  Service.timeout 4508103226997866 = 2001 /\
  Service.timeout 4508103226997865 = 2000.
Proof. vm_compute. repeat split; reflexivity. Qed.

Example floor_times_3_rounds_up_to_2 :
  Service.floor_times 3 6004799503160661 = 2 /\
  Service.floor_times 3 6004799503160660 = 1.
Proof. vm_compute. split; reflexivity. Qed.

Example floor_times_of_the_largest_value :
  Service.floor_times 2 (2 ^ 53 - 1) = 1 /\
  Service.floor_times 3 (2 ^ 53 - 1) = 2 /\
  Service.floor_times 5 (2 ^ 53 - 1) = 4 /\
  Service.floor_times 20 (2 ^ 53 - 1) = 19 /\
  Service.floor_times 30 (2 ^ 53 - 1) = 29.
Proof. vm_compute. repeat split; reflexivity. Qed.

(** * Properties of the command-line tool *)

Section CommandLine.
Import JS CLI CLISpec.

Lemma bind_run {A B : Type} (c : M A) (f : A -> M B) (w : world) :
  (c ≫= f) w =
  match c w with
  | (inl e, w') => (inl e, w')
  | (inr a, w') => f a w'
  end.
Proof. reflexivity. Qed.

Lemma forEach_log (lines : list string) (w : world) :
  forEach log lines w = (inr tt, World (fs w) (now w) (out w ++ lines) (err w) (env w)).
Proof.
  revert w. induction lines as [|l lines IH]; intros w; cbn [forEach].
  - rewrite app_nil_r. destruct w; reflexivity.
  - rewrite bind_run. cbv [log]. rewrite IH. cbn [fs now out err env].
    rewrite <- app_assoc. reflexivity.
Qed.

(** Runs the primitive steps of a computation, leaving strings and
    maps folded. *)
Ltac exec :=
  cbv [mbind M_bind mret M_ret log log_error write_json delay date_now throw
       lift existsSync read_json toLocaleString json_text fs now out err env].

Lemma isProjectConnected_closed (self : cli) (w : world) :
  gate_closed self (fs w) = true ->
  isProjectConnected self w = (inr false, w).
Proof.
  unfold gate_closed, isProjectConnected. rewrite bind_run. unfold existsSync.
  destruct (fs w !! configFile self) as [c|] eqn:E; cbn.
  2: reflexivity.
  rewrite bind_run. unfold read_json. rewrite E.
  destruct c as [v|]; [|discriminate].
  destruct v; try discriminate; try reflexivity.
  cbn. destruct (kv !! "connected") as [[| [] | | | |]|]; try discriminate; reflexivity.
Qed.

Lemma isProjectConnected_open (self : cli) (w : world) :
  gate_open self (fs w) = true ->
  isProjectConnected self w = (inr true, w).
Proof.
  unfold gate_open, isProjectConnected. rewrite bind_run. unfold existsSync.
  destruct (fs w !! configFile self) as [c|] eqn:E; cbn; [|discriminate].
  rewrite bind_run. unfold read_json. rewrite E.
  destruct c as [v|]; [|discriminate].
  destruct v; try discriminate.
  cbn. destruct (kv !! "connected") as [[| [] | | | |]|]; try discriminate; reflexivity.
Qed.



Lemma connect_absent (self : cli) (opts : options) (w : world) :
  fs w !! configFile self = None ->
  exists w', connectRepository self opts w = (inl not_initialized, w') /\ fs w' = fs w.
Proof.
  intros Habsent.
  destruct w as [files t o e h]. cbn [fs] in *.
  unfold connectRepository. exec. rewrite Habsent.
  rewrite bool_decide_eq_false_2 by (intros [x Hx]; discriminate Hx).
  cbn [negb]. eexists. split; reflexivity.
Qed.

(** C2. With no config file, [connect] throws the "not initialized"
    error; nothing is written: the file system is the one before the
    call, so there is still no config file. *)
Theorem connect_before_init_fails (self : cli) (opts : options) (w : world) :
  fs w !! configFile self = None ->
  exists w',
    connectRepository self opts w = (inl not_initialized, w') /\
    fs w' = fs w /\
    fs w' !! configFile self = None.
Proof.
  intros Habsent.
  destruct (connect_absent self opts w Habsent) as (w' & Hrun & Hfs).
  exists w'. rewrite Hfs. auto.
Qed.

(** [connect] in an empty directory. *)
Lemma connect_before_init_fails_witness :
  exists w',
    connectRepository (constructor "/srv/lab3") ∅ fresh_world = (inl not_initialized, w') /\
    fs w' = ∅.
Proof.
  destruct (connect_before_init_fails (constructor "/srv/lab3") ∅ fresh_world
              ltac:(reflexivity))
    as (w' & Hrun & Hfs & _).
  exists w'. auto.
Defined.

(** With the gate closed each gated command throws right after its
    banner line. *)
Lemma gated_command_closed (self : cli) (w : world) (banner : string)
    (rest : M unit) :
  gate_closed self (fs w) = true ->
  (log banner;;
   connected ← isProjectConnected self;
   (if negb connected then throw not_connected else mret tt);;
   rest) w =
  (inl not_connected, World (fs w) (now w) (out w ++ [banner]) (err w) (env w)).
Proof.
  intros Hclosed. rewrite bind_run. cbv [log].
  rewrite bind_run, isProjectConnected_closed by exact Hclosed.
  reflexivity.
Qed.

(** The gate only reads: whatever it returns or throws (it throws
    when the config file holds no JSON text, or the JSON value
    [null]), the world is as before. *)
Lemma gate_failure_writes_nothing (self : cli) (w : world) :
  exists r, isProjectConnected self w = (r, w).
Proof.
  unfold isProjectConnected. rewrite bind_run. unfold existsSync.
  destruct (fs w !! configFile self) as [c|] eqn:E; cbn [negb]; [|eauto].
  rewrite bool_decide_eq_true_2 by eauto. cbn [negb].
  rewrite bind_run. unfold read_json. rewrite E.
  destruct c as [v|]; [|eauto].
  rewrite bind_run. destruct v; cbn [get lift]; eauto.
Qed.

(** C1. While the gate is closed, [scan], [analyze] and [report] each
    throw the "not connected" error, whatever the options; the file
    system and the clock are as before the call, so no report file
    appears and the configuration is untouched.  Run from the command
    line, each ends with exit status 1 and the error on the error
    stream. *)
Theorem gated_commands_fail_when_not_connected
    (self : cli) (opts : options) (w : world) :
  gate_closed self (fs w) = true ->
  (exists w1, runScan self opts w = (inl not_connected, w1) /\
              fs w1 = fs w /\ now w1 = now w) /\
  (exists w2, analyzeCode self opts w = (inl not_connected, w2) /\
              fs w2 = fs w /\ now w2 = now w) /\
  (exists w3, generateReport self opts w = (inl not_connected, w3) /\
              fs w3 = fs w /\ now w3 = now w) /\
  (forall node script command rest,
      command = "scan" \/ command = "analyze" \/ command = "report" ->
      exists w4,
        run self (node :: script :: command :: rest) w = (1, w4) /\
        fs w4 = fs w /\
        err w4 = (err w ++ ["❌ Error: " +:+ message not_connected])%list).
Proof.
  intros Hclosed.
  split; [|split; [|split]].
  - unfold runScan. rewrite gated_command_closed by exact Hclosed.
    eexists. repeat split; reflexivity.
  - unfold analyzeCode. rewrite gated_command_closed by exact Hclosed.
    eexists. repeat split; reflexivity.
  - unfold generateReport. rewrite gated_command_closed by exact Hclosed.
    eexists. repeat split; reflexivity.
  - intros node script command rest Hcommand.
    unfold run. cbn [drop]. unfold command_of. cbn [lookup list_lookup].
    destruct Hcommand as [-> | [-> | ->]];
      cbv [dispatch String.eqb Ascii.eqb Bool.eqb];
      [unfold runScan | unfold analyzeCode | unfold generateReport];
      rewrite gated_command_closed by exact Hclosed;
      eexists; repeat split; reflexivity.
Qed.

(** [scan --type secrets] in an empty directory. *)
Lemma gated_commands_fail_when_not_connected_witness :
  exists w',
    run (constructor "/srv/lab3") ["node"; "codeant-demo.js"; "scan"; "--type"; "secrets"]
      fresh_world = (1, w') /\
    fs w' = ∅ /\
    err w' = ["❌ Error: Repository not connected. Run " +:+ dq +:+ "connect" +:+ dq +:+
              " first."].
Proof.
  destruct (gated_commands_fail_when_not_connected (constructor "/srv/lab3") ∅ fresh_world
              ltac:(vm_compute; reflexivity))
    as (_ & _ & _ & Hrun).
  destruct (Hrun "node" "codeant-demo.js" "scan" ["--type"; "secrets"] (or_introl eq_refl))
    as (w' & Hrun' & Hfs & Herr).
  exists w'. auto.
Defined.



Lemma union_lookup (o d : gmap string json) (k : string) :
  (o ∪ d) !! k = match o !! k with Some v => Some v | None => d !! k end.
Proof.
  rewrite lookup_union. destruct (o !! k), (d !! k); reflexivity.
Qed.

Lemma initProject_run (self : cli) (opts : options) (w : world) :
  exists w',
    initProject self opts w = (inr tt, w') /\
    fs w' = <[configFile self := Json (JObj (opts ∪ defaultConfig self))]> (fs w).
Proof.
  destruct w as [files t o e h].
  unfold initProject. exec. eexists. split; reflexivity.
Qed.

(** C3, as the code has it.  [init] persists the defaults overlaid
    with the overrides one top-level key at a time: an overridden key
    takes the override's value whole, every other key keeps its
    default, and no other file changes.  The merge is shallow for
    every key, [rules] and [thresholds] included. *)
Theorem init_merge_is_shallow (cwd : string) (opts : options) (w : world) :
  let self := constructor cwd in
  exists w' config,
    initProject self opts w = (inr tt, w') /\
    persisted self w' = Some config /\
    (forall k, config !! k =
               match opts !! k with
               | Some v => Some v
               | None => defaultConfig self !! k
               end) /\
    (forall path, path <> configFile self -> fs w' !! path = fs w !! path).
Proof.
  intros self.
  destruct (initProject_run self opts w) as (w' & Hrun & Hfs).
  exists w', (opts ∪ defaultConfig self).
  split; [exact Hrun|]. split; [|split].
  - unfold persisted. rewrite Hfs, lookup_insert_eq. reflexivity.
  - intros k. apply union_lookup.
  - intros path Hne. rewrite Hfs. apply lookup_insert_ne. congruence.
Qed.

(** C3 fails as stated.  Overriding the single rule [security] makes
    [rules] hold that one key: the defaults [quality], [performance]
    and [accessibility] are gone, where the key-by-key merge of the
    claim would keep them.  From the command line, [init --rules
    strict] replaces the whole mapping by the string. *)
Lemma init_override_of_one_rule_drops_the_others :
  let self := constructor "/srv/lab3" in
  let opts : options := {[ "rules" := JObj {[ "security" := JBool false ]} ]} in
  (exists w' config,
     initProject self opts fresh_world = (inr tt, w') /\
     persisted self w' = Some config /\
     config !! "rules" = Some (JObj {[ "security" := JBool false ]}) /\
     (exists kept, spec_merge (defaultConfig self) opts !! "rules" = Some (JObj kept) /\
                   kept !! "quality" = Some (JBool true)) /\
     config <> spec_merge (defaultConfig self) opts) /\
  (exists w' config,
     run self ["node"; "codeant-demo.js"; "init"; "--rules"; "strict"] fresh_world
       = (0, w') /\
     persisted self w' = Some config /\
     config !! "rules" = Some (JStr "strict")).
Proof.
  intros self opts. split.
  - destruct (initProject_run self opts fresh_world) as (w' & Hrun & Hfs).
    exists w', (opts ∪ defaultConfig self).
    split; [exact Hrun|].
    split; [unfold persisted; rewrite Hfs, lookup_insert_eq; reflexivity|].
    split; [vm_compute; reflexivity|].
    split.
    + eexists. split; vm_compute; reflexivity.
    + intros Heq. apply (f_equal (fun m => m !! "rules")) in Heq.
      vm_compute in Heq. discriminate Heq.
  - destruct (initProject_run self (parseOptions ["--rules"; "strict"]) fresh_world)
      as (w' & Hrun & Hfs).
    exists w', (parseOptions ["--rules"; "strict"] ∪ defaultConfig self).
    split.
    { unfold run. cbn [drop]. unfold command_of. cbn [lookup list_lookup].
      cbv [dispatch String.eqb Ascii.eqb Bool.eqb]. rewrite Hrun. reflexivity. }
    split; [unfold persisted; rewrite Hfs, lookup_insert_eq; reflexivity|].
    vm_compute. reflexivity.
Qed.

Lemma iso_nonempty (t : Z) : Clock.toISOString t <> "".
Proof.
  unfold Clock.toISOString, Clock.iso.
  destruct (Clock.civil (t / 86400000)) as [[y m] d].
  destruct (Clock.year_string y); discriminate.
Qed.

(** [connect] on a config file that holds an object. *)
Lemma connect_on_record (self : cli) (opts : options) (w : world)
    (config : gmap string json) :
  fs w !! configFile self = Some (Json (JObj config)) ->
  exists w',
    connectRepository self opts w = (inr tt, w') /\
    fs w' =
      <[configFile self :=
          Json (JObj (<["connectedAt" := JStr (Clock.toISOString (now w + 4300))]>
                     (<["connected" := JBool true]> config)))]> (fs w).
Proof.
  destruct w as [files t o e h]. cbn [fs now]. intros Hfile.
  unfold connectRepository. exec. rewrite Hfile.
  rewrite bool_decide_eq_true_2 by eauto. cbn [negb]. exec. rewrite Hfile.
  destruct (truthy (opts !! "repo")); cbn [get set];
    replace (t + 1000 + 1500 + 1000 + 800) with (t + 4300) by lia;
    eexists; split; reflexivity.
Qed.

Lemma config_ok_after_connect (config : gmap string json) (t : Z) :
  config_ok (<["connectedAt" := JStr (Clock.toISOString t)]>
               (<["connected" := JBool true]> config)) = true.
Proof.
  unfold config_ok.
  rewrite lookup_insert_ne, lookup_insert_eq by discriminate.
  rewrite lookup_insert_eq.
  destruct (String.eqb_spec (Clock.toISOString t) "") as [Hempty|_]; [|reflexivity].
  destruct (iso_nonempty t Hempty).
Qed.

Lemma config_ok_after_init (cwd : string) (opts : options) :
  config_ok (opts ∪ defaultConfig (constructor cwd)) = config_ok opts.
Proof.
  unfold config_ok. rewrite !union_lookup.
  replace (defaultConfig (constructor cwd) !! "connected") with (@None json)
    by reflexivity.
  replace (defaultConfig (constructor cwd) !! "connectedAt") with (@None json)
    by reflexivity.
  destruct (opts !! "connected") as [[| [] | | | |]|]; try reflexivity.
  destruct (opts !! "connectedAt"); reflexivity.
Qed.

(** What the config file of a reachable file system holds: nothing, a
    record that satisfies the invariant, or the record that [init]
    wrote from overrides that break the invariant by themselves. *)
Lemma reachable_cases (cwd : string) (files : gmap string content) :
  reachable (constructor cwd) files ->
  files !! configFile (constructor cwd) = None \/
  exists config,
    files !! configFile (constructor cwd) = Some (Json (JObj config)) /\
    (config_ok config = true \/
     exists overrides,
       config_ok overrides = false /\
       config = overrides ∪ defaultConfig (constructor cwd)).
Proof.
  set (self := constructor cwd).
  induction 1 as [files Habsent | w w' opts r _ _ Hrun | w w' opts r _ IH Hrun].
  - left. exact Habsent.
  - destruct (initProject_run self opts w) as (w1 & Hrun1 & Hfs).
    rewrite Hrun1 in Hrun. injection Hrun as _ <-.
    right. exists (opts ∪ defaultConfig self).
    split; [rewrite Hfs; apply lookup_insert_eq|].
    destruct (config_ok opts) eqn:Hopts.
    + left. unfold self. rewrite config_ok_after_init. exact Hopts.
    + right. exists opts. split; [exact Hopts|reflexivity].
  - destruct IH as [Habsent | (config & Hfile & _)].
    + destruct (connect_absent self opts w Habsent) as (w1 & Hrun1 & Hfs).
      rewrite Hrun1 in Hrun. injection Hrun as _ <-.
      left. rewrite Hfs. exact Habsent.
    + destruct (connect_on_record self opts w config Hfile) as (w1 & Hrun1 & Hfs).
      rewrite Hrun1 in Hrun. injection Hrun as _ <-.
      right. eexists. split; [rewrite Hfs; apply lookup_insert_eq|].
      left. apply config_ok_after_connect.
Qed.

(** C4, as the code has it.  A file system reachable through [init]
    and [connect], with any overrides, satisfies the invariant unless
    its config file is the record that [init] wrote from overrides
    that break the invariant by themselves ([connected] set to [true]
    without a non-empty string for [connectedAt]): after an [init] the
    invariant holds exactly when the overrides satisfy it, whatever
    was there before.  After a successful [connect], from any
    reachable state, the persisted record has [connected = true] and
    for [connectedAt] the non-empty ISO text of the clock at the
    write, 4300 ms after the call, so the invariant holds again; a
    [connect] that fails leaves the files as they were. *)
Theorem reachable_configs_keep_the_invariant (cwd : string) :
  let self := constructor cwd in
  (forall files,
      reachable self files ->
      persisted_ok self files = true \/
      exists overrides,
        config_ok overrides = false /\
        files !! configFile self =
          Some (Json (JObj (overrides ∪ defaultConfig self)))) /\
  (forall w w' opts r,
      initProject self opts w = (r, w') ->
      persisted_ok self (fs w') = config_ok opts) /\
  (forall w w' opts,
      reachable self (fs w) ->
      connectRepository self opts w = (inr tt, w') ->
      persisted_ok self (fs w') = true /\
      exists config stamp,
        persisted self w' = Some config /\
        config !! "connected" = Some (JBool true) /\
        config !! "connectedAt" = Some (JStr stamp) /\
        stamp = Clock.toISOString (now w + 4300) /\
        stamp <> "") /\
  (forall w w' opts e,
      reachable self (fs w) ->
      connectRepository self opts w = (inl e, w') ->
      fs w' = fs w).
Proof.
  intros self. subst self. set (self := constructor cwd).
  split; [|split; [|split]].
  - intros files Hreach. unfold self in *.
    destruct (reachable_cases cwd files Hreach)
      as [Habsent | (config & Hfile & [Hok | (overrides & Hbad & ->)])].
    + left. unfold persisted_ok. rewrite Habsent. reflexivity.
    + left. unfold persisted_ok. rewrite Hfile. exact Hok.
    + right. exists overrides. split; [exact Hbad|exact Hfile].
  - intros w w' opts r Hrun.
    destruct (initProject_run self opts w) as (w1 & Hrun1 & Hfs).
    rewrite Hrun1 in Hrun. injection Hrun as _ <-.
    unfold persisted_ok. rewrite Hfs, lookup_insert_eq.
    apply config_ok_after_init.
  - intros w w' opts Hreach Hrun.
    destruct (reachable_cases cwd _ Hreach) as [Habsent | (config & Hfile & _)].
    + destruct (connect_absent self opts w Habsent) as (w1 & Hrun1 & _).
      rewrite Hrun1 in Hrun. discriminate Hrun.
    + destruct (connect_on_record self opts w config Hfile) as (w1 & Hrun1 & Hfs).
      rewrite Hrun1 in Hrun. injection Hrun as <-.
      split.
      { unfold persisted_ok. rewrite Hfs, lookup_insert_eq.
        apply config_ok_after_connect. }
      exists (<["connectedAt" := JStr (Clock.toISOString (now w + 4300))]>
                (<["connected" := JBool true]> config)),
             (Clock.toISOString (now w + 4300)).
      split; [unfold persisted; rewrite Hfs, lookup_insert_eq; reflexivity|].
      split; [rewrite lookup_insert_ne, lookup_insert_eq by discriminate; reflexivity|].
      split; [apply lookup_insert_eq|].
      split; [reflexivity|apply iso_nonempty].
  - intros w w' opts e Hreach Hrun.
    destruct (reachable_cases cwd _ Hreach) as [Habsent | (config & Hfile & _)].
    + destruct (connect_absent self opts w Habsent) as (w1 & Hrun1 & Hfs).
      rewrite Hrun1 in Hrun. injection Hrun as _ <-. exact Hfs.
    + destruct (connect_on_record self opts w config Hfile) as (w1 & Hrun1 & _).
      rewrite Hrun1 in Hrun. discriminate Hrun.
Qed.

(** C4 fails as stated.  [init --connected] writes a configuration
    with [connected = true] and no [connectedAt]: a state reachable
    through [init] alone that breaks the invariant. *)
Lemma init_can_break_the_invariant :
  let self := constructor "/srv/lab3" in
  exists w' config,
    run self ["node"; "codeant-demo.js"; "init"; "--connected"] fresh_world = (0, w') /\
    reachable self (fs w') /\
    persisted self w' = Some config /\
    config !! "connected" = Some (JBool true) /\
    config !! "connectedAt" = None /\
    persisted_ok self (fs w') = false.
Proof.
  intros self.
  destruct (initProject_run self (parseOptions ["--connected"]) fresh_world)
    as (w' & Hrun & Hfs).
  exists w', (parseOptions ["--connected"] ∪ defaultConfig self).
  split.
  { unfold run. cbn [drop]. unfold command_of. cbn [lookup list_lookup].
    cbv [dispatch String.eqb Ascii.eqb Bool.eqb]. rewrite Hrun. reflexivity. }
  split.
  { eapply reach_init with (w := fresh_world); [|exact Hrun].
    apply reach_start. reflexivity. }
  split; [unfold persisted; rewrite Hfs, lookup_insert_eq; reflexivity|].
  split; [vm_compute; reflexivity|].
  split; [vm_compute; reflexivity|].
  unfold persisted_ok. rewrite Hfs, lookup_insert_eq. vm_compute. reflexivity.
Qed.

(** A run of [init --connected], which breaks the invariant, and then
    of [connect], which restores it, from an empty directory, as an
    instance of the theorem. *)
Lemma reachable_configs_keep_the_invariant_witness :
  let self := constructor "/srv/lab3" in
  exists w1 w2 config stamp,
    initProject self (parseOptions ["--connected"]) fresh_world = (inr tt, w1) /\
    persisted_ok self (fs w1) = false /\
    connectRepository self ∅ w1 = (inr tt, w2) /\
    persisted_ok self (fs w2) = true /\
    persisted self w2 = Some config /\
    config !! "connected" = Some (JBool true) /\
    config !! "connectedAt" = Some (JStr stamp) /\
    stamp <> "".
Proof.
  intros self.
  destruct (initProject_run self (parseOptions ["--connected"]) fresh_world)
    as (w1 & Hinit & Hfs1).
  assert (Hreach : reachable self (fs w1)).
  { eapply reach_init with (w := fresh_world); [|exact Hinit].
    apply reach_start. reflexivity. }
  destruct (connect_on_record self ∅ w1 (parseOptions ["--connected"] ∪ defaultConfig self))
    as (w2 & Hrun & Hfs).
  { rewrite Hfs1. apply lookup_insert_eq. }
  destruct (reachable_configs_keep_the_invariant "/srv/lab3")
    as (_ & Hafter_init & Hafter_connect & _).
  destruct (Hafter_connect w1 w2 ∅ Hreach Hrun)
    as (Hok & config & stamp & Hconfig & Hconnected & Hat & _ & Hstamp).
  exists w1, w2, config, stamp.
  split; [exact Hinit|].
  split.
  { transitivity (config_ok (parseOptions ["--connected"]));
      [exact (Hafter_init _ _ _ _ Hinit)|vm_compute; reflexivity]. }
  split; [exact Hrun|].
  split; [exact Hok|].
  split; [exact Hconfig|].
  split; [exact Hconnected|].
  split; [exact Hat|exact Hstamp].
Defined.

(** *** The report command *)

Lemma append_cancel (p a b : string) : p ++ a = p ++ b -> a = b.
Proof.
  induction p as [|c p IH]; cbn [String.append]; intros H.
  - exact H.
  - injection H as H. exact (IH H).
Qed.

Lemma join_cancel (dir a b : string) : join dir a = join dir b -> a = b.
Proof.
  unfold join. destruct (String.eqb dir "/"); intros H.
  - exact (append_cancel _ _ _ H).
  - apply append_cancel in H. exact (append_cancel _ _ _ H).
Qed.

Lemma report_file_is_not_the_config (cwd middle : string) :
  join cwd ("codeant-report-" ++ middle ++ ".json") <> configFile (constructor cwd).
Proof.
  cbn [configFile constructor]. intros H. apply join_cancel in H.
  cbn [String.append] in H. discriminate H.
Qed.

Lemma cli_report_run (self : cli) (opts : options) (w : world) :
  gate_open self (fs w) = true ->
  let t := now w + 5700 in
  let data := reportData (Clock.toISOString t) in
  let reportFile := "codeant-report-" ++ pretty t ++ ".json" in
  generateReport self opts w =
  (inr tt,
   if wants_json opts then
     World (<[join (projectRoot self) reportFile := Json (JObj data)]> (fs w)) t
           (out w ++ report_progress ++ ["✅ JSON report saved to: " ++ reportFile])
           (err w) (env w)
   else
     World (fs w) t
           (out w ++ report_progress ++ report_lines data (locale (env w) t))
           (err w) (env w)).
Proof.
  intros Hopen t data reportFile.
  unfold generateReport. rewrite bind_run. cbv [log].
  rewrite bind_run, isProjectConnected_open by exact Hopen.
  subst t data reportFile. destruct w as [files t o e h].
  exec. cbn [negb]. exec.
  replace (t + 2000 + 1500 + 1000 + 1200) with (t + 5700) by lia.
  destruct (wants_json opts).
  - exec. unfold report_progress. rewrite <- !app_assoc. reflexivity.
  - rewrite forEach_log. exec. unfold report_progress.
    rewrite <- !app_assoc. reflexivity.
Qed.

(** C9. On a connected project the [report] command succeeds for every
    option bag, and the report it builds is [reportData] at the
    current time stamp: the scores are the constants 8.3, 8.5, 8.2,
    7.8 and 9.1, and two reports differ in nothing but [timestamp].
    With [--format json] (or [--json]) it is written to
    [codeant-report-<ms>.json], beside an untouched config file;
    otherwise it is printed and no file changes. *)
Theorem cli_report_is_constant (cwd : string) (opts : options) (w : world) :
  let self := constructor cwd in
  gate_open self (fs w) = true ->
  let t := now w + 5700 in
  let data := reportData (Clock.toISOString t) in
  let reportFile := join cwd ("codeant-report-" ++ pretty t ++ ".json") in
  exists w',
    generateReport self opts w = (inr tt, w') /\
    (if wants_json opts
     then fs w' = <[reportFile := Json (JObj data)]> (fs w)
     else fs w' = fs w /\
          out w' = (out w ++ report_progress ++
                    report_lines data (locale (env w) t))%list) /\
    fs w' !! configFile self = fs w !! configFile self /\
    (forall stamp, delete "timestamp" data = delete "timestamp" (reportData stamp)) /\
    data !! "overall_score" = Some (JNum 83 1) /\
    field data "security" "score" = "8.5" /\
    field data "quality" "score" = "8.2" /\
    field data "performance" "score" = "7.8" /\
    field data "accessibility" "score" = "9.1".
Proof.
  intros self Hopen t data reportFile.
  rewrite (cli_report_run self opts w Hopen).
  eexists. split; [reflexivity|].
  split; [|split; [|split]].
  - destruct (wants_json opts); cbn [fs out]; auto.
  - destruct (wants_json opts); cbn [fs]; [|reflexivity].
    apply lookup_insert_ne. apply report_file_is_not_the_config.
  - intros stamp. unfold data, reportData. rewrite !delete_insert_eq. reflexivity.
  - repeat split; vm_compute; reflexivity.
Qed.

(** [report --format json] on a connected project. *)
Lemma cli_report_is_constant_witness :
  exists w',
    generateReport (constructor "/srv/lab3") (parseOptions ["--format"; "json"])
      connected_world = (inr tt, w') /\
    fs w' !! "/srv/lab3/codeant-report-1700000005700.json" =
      Some (Json (JObj (reportData "2023-11-14T22:13:25.700Z"))).
Proof.
  destruct (cli_report_is_constant "/srv/lab3" (parseOptions ["--format"; "json"])
              connected_world)
    as (w' & Hrun & Hfs & _).
  { vm_compute. reflexivity. }
  exists w'. split; [exact Hrun|].
  change (wants_json (parseOptions ["--format"; "json"])) with true in Hfs.
  rewrite Hfs. apply lookup_insert_eq.
Defined.

(** *** Unknown scan and analysis types *)

Lemma parse_type (t : string) :
  parseOptions ["--type"; t] = <["type" := value_or_true (Some t)]> ∅.
Proof. reflexivity. Qed.

Lemma value_or_true_truthy (next : option string) :
  truthy (Some (value_or_true next)) = true.
Proof.
  destruct next as [v|]; [|reflexivity]. cbn [value_or_true].
  destruct (String.eqb v "") eqn:E; cbn [truthy]; [reflexivity|].
  rewrite E. reflexivity.
Qed.

Lemma is_string_value (t text : string) :
  t <> text -> text <> "" -> is_string (value_or_true (Some t)) text = false.
Proof.
  intros Hne Htext. cbn [value_or_true].
  destruct (String.eqb t ""); cbn [is_string]; [reflexivity|].
  apply String.eqb_neq. exact Hne.
Qed.

Lemma scan_findings_unknown (t : string) :
  t <> "dependencies" -> t <> "vulnerabilities" -> t <> "secrets" ->
  scan_findings (value_or_true (Some t)) = [].
Proof.
  intros H1 H2 H3. unfold scan_findings.
  rewrite !is_string_value by (assumption || discriminate). reflexivity.
Qed.

Lemma analysis_findings_unknown (t : string) :
  t <> "quality" -> t <> "performance" -> t <> "maintainability" ->
  t <> "accessibility" ->
  analysis_findings (value_or_true (Some t)) = [].
Proof.
  intros H1 H2 H3 H4. unfold analysis_findings.
  rewrite !is_string_value by (assumption || discriminate). reflexivity.
Qed.

Lemma runScan_single_type (self : cli) (v : json) (w : world) :
  gate_open self (fs w) = true ->
  truthy (Some v) = true ->
  runScan self (<["type" := v]> ∅) w =
  (inr tt,
   World (fs w) (now w + 2000)
     (out w ++
      ["🛡️ Running security scan..." ++ nl;
       "🔍 Scanning for " ++ to_string v ++ "..."] ++
      scan_findings v ++
      [""; "📊 Security Scan Summary:"; "├── Security Score: 8.5/10";
       "├── Vulnerabilities: 1 medium"; "├── Secrets: 0 exposed";
       "└── Recommendations: 2 available" ++ nl])
     (err w) (env w)).
Proof.
  intros Hopen Hv.
  unfold runScan. rewrite bind_run. cbv [log].
  rewrite bind_run, isProjectConnected_open by exact Hopen.
  destruct w as [files t o e h].
  rewrite lookup_insert_eq, Hv.
  rewrite lookup_insert_ne, lookup_empty by discriminate.
  cbn [truthy forEach]. exec. cbn [negb]. exec.
  rewrite forEach_log. exec.
  rewrite <- !app_assoc. reflexivity.
Qed.

Lemma analyzeCode_single_type (self : cli) (v : json) (w : world) :
  gate_open self (fs w) = true ->
  truthy (Some v) = true ->
  analyzeCode self (<["type" := v]> ∅) w =
  (inr tt,
   World (fs w) (now w + 1500)
     (out w ++
      ["📊 Analyzing code quality..." ++ nl;
       "🔍 Analyzing " ++ to_string v ++ "..."] ++
      analysis_findings v ++
      [""; "🤖 AI Recommendations:"; "├── Add PropTypes for better type safety";
       "├── Implement React.memo for performance";
       "├── Add error boundaries for robustness";
       "└── Consider adding integration tests" ++ nl])
     (err w) (env w)).
Proof.
  intros Hopen Hv.
  unfold analyzeCode. rewrite bind_run. cbv [log].
  rewrite bind_run, isProjectConnected_open by exact Hopen.
  destruct w as [files t o e h].
  rewrite lookup_insert_eq, Hv.
  cbn [forEach]. exec. cbn [negb]. exec.
  rewrite forEach_log. exec.
  rewrite <- !app_assoc. reflexivity.
Qed.

(** C10. On a connected project, [scan --type t] with [t] none of
    [dependencies], [vulnerabilities], [secrets] ends with exit status
    0: the type is announced, no finding is printed for it, the
    summary follows, nothing goes to the error stream and no file
    changes.  The same holds for [analyze --type t] with [t] none of
    its four types. *)
Theorem unknown_type_is_not_an_error (self : cli) (node script t : string) (w : world) :
  gate_open self (fs w) = true ->
  (t <> "dependencies" -> t <> "vulnerabilities" -> t <> "secrets" ->
   exists w',
     run self [node; script; "scan"; "--type"; t] w = (0, w') /\
     fs w' = fs w /\ err w' = err w /\
     out w' =
       (out w ++
        ["🛡️ Running security scan..." +:+ nl;
         "🔍 Scanning for " +:+ shown_type t +:+ "...";
         ""; "📊 Security Scan Summary:"; "├── Security Score: 8.5/10";
         "├── Vulnerabilities: 1 medium"; "├── Secrets: 0 exposed";
         "└── Recommendations: 2 available" +:+ nl])%list) /\
  (t <> "quality" -> t <> "performance" -> t <> "maintainability" ->
   t <> "accessibility" ->
   exists w',
     run self [node; script; "analyze"; "--type"; t] w = (0, w') /\
     fs w' = fs w /\ err w' = err w /\
     out w' =
       (out w ++
        ["📊 Analyzing code quality..." +:+ nl;
         "🔍 Analyzing " +:+ shown_type t +:+ "...";
         ""; "🤖 AI Recommendations:"; "├── Add PropTypes for better type safety";
         "├── Implement React.memo for performance";
         "├── Add error boundaries for robustness";
         "└── Consider adding integration tests" +:+ nl])%list).
Proof.
  intros Hopen. split.
  - intros H1 H2 H3.
    unfold run. cbn [drop]. unfold command_of. cbn [lookup list_lookup].
    cbv [dispatch String.eqb Ascii.eqb Bool.eqb]. rewrite parse_type.
    rewrite runScan_single_type by (exact Hopen || apply value_or_true_truthy).
    rewrite scan_findings_unknown by assumption.
    eexists. split; [reflexivity|]. cbn [fs err out]. auto.
  - intros H1 H2 H3 H4.
    unfold run. cbn [drop]. unfold command_of. cbn [lookup list_lookup].
    cbv [dispatch String.eqb Ascii.eqb Bool.eqb]. rewrite parse_type.
    rewrite analyzeCode_single_type by (exact Hopen || apply value_or_true_truthy).
    rewrite analysis_findings_unknown by assumption.
    eexists. split; [reflexivity|]. cbn [fs err out]. auto.
Qed.

(** [scan --type licenses] on a connected project. *)
Lemma unknown_type_is_not_an_error_witness :
  exists w',
    run (constructor "/srv/lab3") ["node"; "codeant-demo.js"; "scan"; "--type"; "licenses"]
      connected_world = (0, w') /\
    fs w' = fs connected_world /\ err w' = [].
Proof.
  destruct (proj1 (unknown_type_is_not_an_error (constructor "/srv/lab3")
                     "node" "codeant-demo.js" "licenses" connected_world
                     ltac:(vm_compute; reflexivity)))
    as (w' & Hrun & Hfs & Herr & _); try discriminate.
  exists w'. auto.
Defined.

(** *** Option parsing *)

(** C8.  [parseOptions] reads the arguments two at a time, so a flag
    that follows a flag is taken as the value of the first one and is
    not parsed itself.  For [scan --fix --type secrets] the bag is
    [{ fix: '--type' }]: the flag [--type] and its value are lost,
    where the claim maps [fix] to [true] and [type] to [secrets]. *)
Theorem parseOptions_takes_a_flag_for_a_value :
  parseOptions ["--fix"; "--type"; "secrets"] = {[ "fix" := JStr "--type" ]} /\
  parseOptions ["--fix"; "--type"; "secrets"] !! "type" = None /\
  spec_parseOptions ["--fix"; "--type"; "secrets"] =
    <["fix" := JBool true]> {[ "type" := JStr "secrets" ]} /\
  parseOptions ["--fix"; "--type"; "secrets"] <>
    spec_parseOptions ["--fix"; "--type"; "secrets"].
Proof.
  repeat split; try (vm_compute; reflexivity).
  intros H. apply (f_equal (fun m => m !! "type")) in H.
  vm_compute in H. discriminate H.
Qed.

Lemma substring_all (s : string) : String.substring 0 (String.length s) s = s.
Proof. induction s as [|c s IH]; cbn; [reflexivity|]. rewrite IH. reflexivity. Qed.

Lemma flag_key (key : string) :
  startsWith ("--" ++ key) "--" = true /\ substring_from 2 ("--" ++ key) = key.
Proof.
  cbv [String.append].
  split; [destruct key; reflexivity|].
  unfold substring_from. cbn [String.length Nat.sub String.substring].
  rewrite ?Nat.sub_0_r. apply substring_all.
Qed.

(** What the loop does on a well-formed list, one flag then its value
    and so on: each flag is mapped to the value after it, a later
    pair overriding an earlier one with the same flag. *)
Lemma parse_from_pairs (pairs : list (string * string)) (o : options) :
  Forall (fun kv => kv.1 <> "__proto__" /\ kv.2 <> "") pairs ->
  parse_from (concat (List.map (fun kv => ["--" +:+ kv.1; kv.2]) pairs)) o =
  foldl (fun acc kv => <[kv.1 := JStr kv.2]> acc) o pairs.
Proof.
  revert o. induction pairs as [|[key value] pairs IH]; intros o Hwf.
  - reflexivity.
  - apply Forall_cons in Hwf as [[Hkey Hvalue] Hwf]. cbn [fst snd] in *.
    cbn [List.map concat app parse_from foldl fst snd].
    rewrite IH by exact Hwf. f_equal.
    unfold parse_step. destruct (flag_key key) as [-> ->].
    unfold assign, value_or_true.
    apply String.eqb_neq in Hkey, Hvalue. rewrite Hkey, Hvalue. reflexivity.
Qed.

(** On a list of flag and value pairs the two agree: each flag is
    mapped to the value after it, the last one to [true] when the list
    ends on it. *)
Example parseOptions_on_pairs :
  parseOptions ["--category"; "security"; "--fix"] =
    <["category" := JStr "security"]> {[ "fix" := JBool true ]} /\
  spec_parseOptions ["--category"; "security"; "--fix"] =
    parseOptions ["--category"; "security"; "--fix"].
Proof. split; vm_compute; reflexivity. Qed.

(** ** More on the commands: what they change and how they compose *)

Import CLIFrame.

(** *** Frames *)

Lemma frame_refl (allowed : string -> Prop) (w : world) : frame allowed w w.
Proof. unfold frame. repeat split; (reflexivity || lia || auto). Qed.

Lemma frame_trans (allowed : string -> Prop) (w1 w2 w3 : world) :
  frame allowed w1 w2 -> frame allowed w2 w3 -> frame allowed w1 w3.
Proof.
  intros (He1 & Hh1 & Ht1 & Ho1 & Hf1) (He2 & Hh2 & Ht2 & Ho2 & Hf2).
  unfold frame. repeat split; try congruence; try lia.
  - etrans; eassumption.
  - intros path Hpath. rewrite Hf2, Hf1 by exact Hpath. reflexivity.
Qed.

Lemma frame_weaken (allowed allowed' : string -> Prop) (w w' : world) :
  (forall path, allowed path -> allowed' path) ->
  frame allowed w w' -> frame allowed' w w'.
Proof.
  intros Hsub (He & Hh & Ht & Ho & Hf). unfold frame. repeat split; auto.
Qed.

Lemma frame_nothing (w w' : world) : frame nothing w w' -> fs w' = fs w.
Proof.
  intros (_ & _ & _ & _ & Hf). apply map_eq. intros path. apply Hf. intros [].
Qed.

Lemma within_weaken (allowed allowed' : string -> Prop) {A : Type} (c : M A) :
  (forall path, allowed path -> allowed' path) ->
  within allowed c -> within allowed' c.
Proof. intros Hsub Hc w r w' Hrun. eapply frame_weaken; eauto. Qed.

Lemma within_bind (allowed : string -> Prop) {A B : Type} (c : M A) (k : A -> M B) :
  within allowed c -> (forall a, within allowed (k a)) -> within allowed (c ≫= k).
Proof.
  intros Hc Hk w r w' Hrun. rewrite bind_run in Hrun.
  destruct (c w) as [[e|a] w1] eqn:Hcw.
  - injection Hrun as <- <-. eapply Hc. exact Hcw.
  - eapply frame_trans; [eapply Hc; exact Hcw | eapply Hk; exact Hrun].
Qed.

Lemma within_same (allowed : string -> Prop) {A : Type} (c : M A) :
  (forall w, exists r, c w = (r, w)) -> within allowed c.
Proof.
  intros Hc w r w' Hrun. destruct (Hc w) as [r' Hr]. rewrite Hr in Hrun.
  injection Hrun as _ <-. apply frame_refl.
Qed.

Lemma within_ret (allowed : string -> Prop) {A : Type} (a : A) :
  within allowed (mret a : M A).
Proof. apply within_same. intros w. eexists. reflexivity. Qed.

Lemma within_throw (allowed : string -> Prop) {A : Type} (e : exn) :
  within allowed (throw e : M A).
Proof. apply within_same. intros w. eexists. reflexivity. Qed.

Lemma within_lift (allowed : string -> Prop) {A : Type} (r : exn + A) :
  within allowed (lift r).
Proof. apply within_same. intros w. eexists. reflexivity. Qed.

Lemma within_date_now (allowed : string -> Prop) : within allowed date_now.
Proof. apply within_same. intros w. eexists. reflexivity. Qed.

Lemma within_existsSync (allowed : string -> Prop) (path : string) :
  within allowed (existsSync path).
Proof. apply within_same. intros w. eexists. reflexivity. Qed.

Lemma within_read_json (allowed : string -> Prop) (path : string) :
  within allowed (read_json path).
Proof.
  apply within_same. intros w. unfold read_json.
  destruct (fs w !! path) as [[v|]|]; eexists; reflexivity.
Qed.

Lemma within_toLocaleString (allowed : string -> Prop) (t : Z) :
  within allowed (toLocaleString t).
Proof. apply within_same. intros w. eexists. reflexivity. Qed.

Lemma within_json_text (allowed : string -> Prop) (v : json) :
  within allowed (json_text v).
Proof. apply within_same. intros w. eexists. reflexivity. Qed.

Lemma within_log (allowed : string -> Prop) (s : string) : within allowed (log s).
Proof.
  intros w r w' Hrun. injection Hrun as _ <-.
  unfold frame. cbn [fs now out err env]. repeat split; try lia; auto.
  apply prefix_app_r. reflexivity.
Qed.

Lemma within_delay (allowed : string -> Prop) (ms : Z) :
  0 <= ms -> within allowed (delay ms).
Proof.
  intros Hms w r w' Hrun. injection Hrun as _ <-.
  unfold frame. cbn [fs now out err env]. repeat split; try lia; auto.
Qed.

Lemma within_write_json (allowed : string -> Prop) (path : string) (v : json) :
  allowed path -> within allowed (write_json path v).
Proof.
  intros Hpath w r w' Hrun. injection Hrun as _ <-.
  unfold frame. cbn [fs now out err env]. repeat split; try lia; auto.
  intros other Hother. apply lookup_insert_ne. intros ->. exact (Hother Hpath).
Qed.

Lemma within_forEach (allowed : string -> Prop) {A : Type} (f : A -> M unit)
    (xs : list A) :
  (forall x, within allowed (f x)) -> within allowed (forEach f xs).
Proof.
  intros Hf. induction xs as [|x xs IH]; cbn [forEach].
  - apply within_ret.
  - apply within_bind; [apply Hf | intros _; exact IH].
Qed.

(** Splits a computation into its steps and frames each of them; the
    step is chosen on the shape of the computation. *)
Ltac frame_step :=
  lazymatch goal with
  | |- within _ (_ ≫= _) => apply within_bind; [| intros ?; cbv beta]
  | |- within _ (log _) => apply within_log
  | |- within _ (mret _) => apply within_ret
  | |- within _ (throw _) => apply within_throw
  | |- within _ (lift _) => apply within_lift
  | |- within _ date_now => apply within_date_now
  | |- within _ (existsSync _) => apply within_existsSync
  | |- within _ (read_json _) => apply within_read_json
  | |- within _ (toLocaleString _) => apply within_toLocaleString
  | |- within _ (json_text _) => apply within_json_text
  | |- within _ (delay _) => apply within_delay; lia
  | |- within _ (forEach _ _) => apply within_forEach; intros ?; cbv beta
  | |- within _ (if ?b then _ else _) => destruct b
  | |- within _ (match ?x with _ => _ end) => destruct x
  end.

Ltac frame_steps := repeat frame_step.

Lemma within_isProjectConnected (allowed : string -> Prop) (self : cli) :
  within allowed (isProjectConnected self).
Proof. unfold isProjectConnected. frame_steps. Qed.

Lemma within_runScan (self : cli) (opts : options) : within nothing (runScan self opts).
Proof.
  unfold runScan. cbv zeta.
  apply within_bind; [apply within_log | intros _].
  apply within_bind; [apply within_isProjectConnected | intros connected].
  frame_steps.
Qed.

Lemma within_analyzeCode (self : cli) (opts : options) :
  within nothing (analyzeCode self opts).
Proof.
  unfold analyzeCode. cbv zeta.
  apply within_bind; [apply within_log | intros _].
  apply within_bind; [apply within_isProjectConnected | intros connected].
  frame_steps.
Qed.

Lemma within_test_loop (categories : list json) (acc : results) :
  within nothing (test_loop categories acc).
Proof.
  revert acc. induction categories as [|c categories IH]; intros acc; cbn [test_loop].
  - apply within_ret.
  - cbv zeta. frame_steps. apply IH.
Qed.

Lemma within_runTestCases (self : cli) (opts : options) :
  within nothing (runTestCases self opts).
Proof.
  unfold runTestCases. cbv zeta.
  apply within_bind; [apply within_log | intros _].
  apply within_bind; [apply within_isProjectConnected | intros connected].
  apply within_bind; [frame_steps | intros _].
  apply within_bind; [apply within_test_loop | intros testResults].
  frame_steps.
Qed.

Lemma within_runDemo (opts : options) : within nothing (runDemo opts).
Proof. unfold runDemo. frame_steps. Qed.

Lemma within_showConfig (self : cli) : within nothing (showConfig self).
Proof. unfold showConfig. frame_steps. Qed.

Lemma within_showHelp : within nothing showHelp.
Proof. unfold showHelp. apply within_log. Qed.

Lemma within_initProject (self : cli) (opts : options) :
  within (config_only self) (initProject self opts).
Proof.
  unfold initProject. cbv zeta.
  apply within_bind; [apply within_log | intros _].
  apply within_bind; [apply within_write_json; reflexivity | intros _].
  frame_steps.
Qed.

Lemma within_connectRepository (self : cli) (opts : options) :
  within (config_only self) (connectRepository self opts).
Proof.
  unfold connectRepository.
  repeat (apply within_bind;
          [first [apply within_write_json; reflexivity | frame_steps] | intros ?]).
  apply within_write_json. reflexivity.
Qed.

Lemma within_generateReport (self : cli) (opts : options) :
  within (reports_only self) (generateReport self opts).
Proof.
  unfold generateReport. cbv zeta.
  apply within_bind; [apply within_log | intros _].
  apply within_bind; [apply within_isProjectConnected | intros connected].
  repeat (apply within_bind; [frame_steps | intros ?]).
  destruct (wants_json opts).
  - apply within_bind; [| intros _; apply within_log].
    apply within_write_json. eexists. reflexivity.
  - frame_steps.
Qed.

Lemma within_dispatch (self : cli) (command : string) (opts : options) :
  within (fun path => config_only self path \/ reports_only self path)
    (dispatch self command opts).
Proof.
  unfold dispatch.
  repeat match goal with |- within _ (if ?b then _ else _) => destruct b end.
  - eapply within_weaken; [|apply within_initProject]. auto.
  - eapply within_weaken; [|apply within_connectRepository]. auto.
  - eapply within_weaken; [|apply within_runScan]. intros ? [].
  - eapply within_weaken; [|apply within_analyzeCode]. intros ? [].
  - eapply within_weaken; [|apply within_runTestCases]. intros ? [].
  - eapply within_weaken; [|apply within_runDemo]. intros ? [].
  - eapply within_weaken; [|apply within_generateReport]. auto.
  - eapply within_weaken; [|apply within_showConfig]. intros ? [].
  - eapply within_weaken; [|apply within_showHelp]. intros ? [].
Qed.

(** The commands that only read: every one but [init], [connect] and
    [report]. *)
Lemma within_read_only (self : cli) (command : string) (opts : options) :
  command <> "init" -> command <> "connect" -> command <> "report" ->
  within nothing (dispatch self command opts).
Proof.
  intros Hinit Hconnect Hreport. unfold dispatch.
  apply String.eqb_neq in Hinit, Hconnect, Hreport.
  rewrite Hinit, Hconnect, Hreport.
  repeat match goal with |- within _ (if ?b then _ else _) => destruct b end.
  - apply within_runScan.
  - apply within_analyzeCode.
  - apply within_runTestCases.
  - apply within_runDemo.
  - apply within_showConfig.
  - apply within_showHelp.
Qed.

(** X1. Whatever the arguments and the world, [run] ends with status 0
    or 1.  With status 0 the error stream is as before; with status 1
    it has gained exactly one line, the message of the error after
    the mark.  In both cases the standard output has only grown and
    the clock has not gone back. *)
Theorem run_ends_with_status_and_one_error_line
    (self : cli) (args : list string) (w w' : world) (status : Z) :
  run self args w = (status, w') ->
  out w `prefix_of` out w' /\
  now w <= now w' /\
  ((status = 0 /\ err w' = err w) \/
   (status = 1 /\ exists text, err w' = (err w ++ ["❌ Error: " +:+ text])%list)).
Proof.
  unfold run. intros Hrun.
  destruct (dispatch self (command_of args) (parseOptions (drop 3 args)) w)
    as [[e|[]] w1] eqn:Hdispatch;
    apply within_dispatch in Hdispatch as (He & _ & Ht & Ho & _);
    injection Hrun as <- <-; cbn [log_error snd fs now out err env].
  - split; [exact Ho|]. split; [exact Ht|]. right. split; [reflexivity|].
    exists (message e). rewrite He. reflexivity.
  - split; [exact Ho|]. split; [exact Ht|]. left. auto.
Qed.

(** [connect] in an empty directory ends with status 1 and one error
    line. *)
Lemma run_ends_with_status_and_one_error_line_witness :
  exists w',
    run (constructor "/srv/lab3") ["node"; "codeant-demo.js"; "connect"] fresh_world
      = (1, w') /\
    exists text, err w' = ["❌ Error: " +:+ text].
Proof.
  destruct (run (constructor "/srv/lab3") ["node"; "codeant-demo.js"; "connect"]
              fresh_world) as [status w'] eqn:Hrun.
  destruct (run_ends_with_status_and_one_error_line _ _ _ _ _ Hrun)
    as (_ & _ & [[Hstatus _] | [Hstatus Herr]]).
  - exfalso. subst status.
    apply (f_equal fst) in Hrun. vm_compute in Hrun. discriminate Hrun.
  - subst status. exists w'. split; [reflexivity|exact Herr].
Defined.

(** X2. Every command but [init], [connect] and [report] leaves the
    whole file system as it was, in every world, with every option
    bag, whether it succeeds or throws: [scan], [analyze], [test],
    [demo], [config], [help] and every unknown command. *)
Theorem other_commands_write_no_file (self : cli) (args : list string) (w : world) :
  command_of args <> "init" ->
  command_of args <> "connect" ->
  command_of args <> "report" ->
  fs (snd (run self args w)) = fs w.
Proof.
  intros Hinit Hconnect Hreport. unfold run.
  destruct (dispatch self (command_of args) (parseOptions (drop 3 args)) w)
    as [[e|[]] w1] eqn:Hdispatch;
    apply within_read_only in Hdispatch; try assumption;
    apply frame_nothing in Hdispatch; exact Hdispatch.
Qed.

(** [test --category security --fix] on a connected project. *)
Lemma other_commands_write_no_file_witness :
  fs (snd (run (constructor "/srv/lab3")
             ["node"; "codeant-demo.js"; "test"; "--category"; "security"; "--fix"]
             connected_world)) = fs connected_world.
Proof.
  apply other_commands_write_no_file; vm_compute; discriminate.
Defined.

(** X3. [init] and [connect] change no file but the config file, and
    [report] changes no file but one named [codeant-report-<ms>.json]
    in the project directory; so [report] never touches the config
    file, in any world and with any options. *)
Theorem commands_write_only_their_own_file (cwd : string) (opts : options) (w : world) :
  let self := constructor cwd in
  (forall path, path <> configFile self ->
     fs (snd (initProject self opts w)) !! path = fs w !! path /\
     fs (snd (connectRepository self opts w)) !! path = fs w !! path) /\
  (forall path,
     (forall t : Z, path <> join cwd ("codeant-report-" +:+ pretty t +:+ ".json")) ->
     fs (snd (generateReport self opts w)) !! path = fs w !! path) /\
  fs (snd (generateReport self opts w)) !! configFile self = fs w !! configFile self.
Proof.
  intros self.
  assert (Hreport : forall path,
     (forall t : Z, path <> join cwd ("codeant-report-" +:+ pretty t +:+ ".json")) ->
     fs (snd (generateReport self opts w)) !! path = fs w !! path).
  { intros path Hpath.
    destruct (generateReport self opts w) as [r w'] eqn:Hrun.
    apply within_generateReport in Hrun as (_ & _ & _ & _ & Hf).
    apply Hf. intros [t Ht]. exact (Hpath t Ht). }
  split; [|split].
  - intros path Hpath. split.
    + destruct (initProject self opts w) as [r w'] eqn:Hrun.
      apply within_initProject in Hrun as (_ & _ & _ & _ & Hf).
      apply Hf. exact Hpath.
    + destruct (connectRepository self opts w) as [r w'] eqn:Hrun.
      apply within_connectRepository in Hrun as (_ & _ & _ & _ & Hf).
      apply Hf. exact Hpath.
  - exact Hreport.
  - apply Hreport. intros t Heq. symmetry in Heq.
    exact (report_file_is_not_the_config cwd (pretty t) Heq).
Qed.

(** X4. A command that is none of the eight names, an empty one or a
    missing one, shows the help text and ends with status 0; nothing
    else is printed and nothing else changes. *)
Theorem unknown_command_shows_help (self : cli) (args : list string) (w : world) :
  Forall (fun name => command_of args <> name)
    ["init"; "connect"; "scan"; "analyze"; "test"; "demo"; "report"; "config"] ->
  run self args w =
  (0, World (fs w) (now w) (out w ++ [help_text]) (err w) (env w)).
Proof.
  intros Hunknown. unfold run, dispatch.
  repeat (apply Forall_cons in Hunknown as [Hname Hunknown];
          apply String.eqb_neq in Hname; rewrite Hname; clear Hname).
  reflexivity.
Qed.

(** No command at all, and a misspelt one. *)
Lemma unknown_command_shows_help_witness :
  fst (run (constructor "/srv/lab3") ["node"; "codeant-demo.js"] fresh_world) = 0 /\
  out (snd (run (constructor "/srv/lab3") ["node"; "codeant-demo.js"; "scna"] fresh_world))
    = [help_text].
Proof.
  split.
  - rewrite unknown_command_shows_help; [reflexivity|].
    repeat (apply Forall_cons_2; [vm_compute; discriminate|]). apply Forall_nil_2.
  - rewrite unknown_command_shows_help; [reflexivity|].
    repeat (apply Forall_cons_2; [vm_compute; discriminate|]). apply Forall_nil_2.
Defined.

(** *** Connecting *)

(** X5. [connect] writes all or nothing: whenever it throws, whatever
    the config file holds (nothing, text that is not JSON, [null], a
    number, a string), the file system is as before. *)
Theorem failed_connect_writes_nothing
    (self : cli) (opts : options) (w w' : world) (e : exn) :
  connectRepository self opts w = (inl e, w') -> fs w' = fs w.
Proof.
  destruct w as [files t o h0 h]. cbn [fs]. unfold connectRepository. exec.
  destruct (files !! configFile self) as [[v|]|] eqn:Hfile.
  - rewrite bool_decide_eq_true_2 by eauto. cbn [negb]. exec. rewrite Hfile.
    destruct (truthy (opts !! "repo"));
      destruct v; cbn [get set]; intros Hrun; try discriminate Hrun;
      injection Hrun as _ <-; reflexivity.
  - rewrite bool_decide_eq_true_2 by eauto. cbn [negb]. exec. rewrite Hfile.
    intros Hrun. injection Hrun as _ <-. reflexivity.
  - rewrite bool_decide_eq_false_2 by (intros [x Hx]; discriminate Hx).
    cbn [negb]. intros Hrun. injection Hrun as _ <-. reflexivity.
Qed.

(** [connect] on a config file that holds the JSON value [null]. *)
Lemma failed_connect_writes_nothing_witness :
  let w := World {[ configFile (constructor "/srv/lab3") := Json JNull ]}
             1700000000000 [] [] quiet_host in
  exists e w',
    connectRepository (constructor "/srv/lab3") ∅ w = (inl e, w') /\ fs w' = fs w.
Proof.
  intros w.
  destruct (connectRepository (constructor "/srv/lab3") ∅ w) as [[e|[]] w'] eqn:Hrun.
  - exists e, w'. split; [reflexivity|].
    exact (failed_connect_writes_nothing _ _ _ _ _ Hrun).
  - exfalso. apply (f_equal fst) in Hrun. vm_compute in Hrun. discriminate Hrun.
Defined.

(** X6. On a config record [connect] changes the two keys [connected]
    and [connectedAt] and no other: every other key, known or not,
    keeps its value.  The options play no part in what is persisted:
    the address given with [--repo] is printed, not stored. *)
Theorem connect_keeps_the_other_keys
    (self : cli) (opts opts' : options) (w : world) (config : gmap string json) :
  persisted self w = Some config ->
  exists config',
    persisted self (snd (connectRepository self opts w)) = Some config' /\
    (forall k, k <> "connected" -> k <> "connectedAt" -> config' !! k = config !! k) /\
    fs (snd (connectRepository self opts' w)) = fs (snd (connectRepository self opts w)).
Proof.
  unfold persisted at 1. intros Hconfig.
  destruct (fs w !! configFile self) as [[[]|]|] eqn:Hfile; try discriminate Hconfig.
  injection Hconfig as ->.
  destruct (connect_on_record self opts w config Hfile) as (w1 & Hrun1 & Hfs1).
  destruct (connect_on_record self opts' w config Hfile) as (w2 & Hrun2 & Hfs2).
  rewrite Hrun1, Hrun2. cbn [snd].
  eexists. split; [unfold persisted; rewrite Hfs1, lookup_insert_eq; reflexivity|].
  split; [|congruence].
  intros k Hk1 Hk2. rewrite !lookup_insert_ne by congruence. reflexivity.
Qed.

(** [connect --repo example.org/x] after [init --owner me]. *)
Lemma connect_keeps_the_other_keys_witness :
  let self := constructor "/srv/lab3" in
  let w := snd (initProject self (parseOptions ["--owner"; "me"]) fresh_world) in
  exists config',
    persisted self (snd (connectRepository self (parseOptions ["--repo"; "example.org/x"]) w))
      = Some config' /\
    config' !! "owner" = Some (JStr "me") /\
    config' !! "repository" = Some (JStr "github.com/MyNameIsBof/lab3").
Proof.
  intros self w.
  destruct (initProject_run self (parseOptions ["--owner"; "me"]) fresh_world)
    as (w1 & Hinit & Hfs).
  assert (Hw : w = w1) by (unfold w; rewrite Hinit; reflexivity).
  destruct (connect_keeps_the_other_keys self (parseOptions ["--repo"; "example.org/x"]) ∅
              w (parseOptions ["--owner"; "me"] ∪ defaultConfig self))
    as (config' & Hpersisted & Hkeys & _).
  { unfold persisted. rewrite Hw, Hfs, lookup_insert_eq. reflexivity. }
  exists config'. split; [exact Hpersisted|].
  split; (rewrite Hkeys by discriminate; vm_compute; reflexivity).
Defined.

(** X7. [init] forgets a connection: whatever state it starts from,
    connected or not, the gate is closed after [init] unless the
    overrides themselves set [connected] to [true]. *)
Theorem init_closes_the_gate (cwd : string) (opts : options) (w : world) :
  opts !! "connected" <> Some (JBool true) ->
  gate_closed (constructor cwd) (fs (snd (initProject (constructor cwd) opts w))) = true.
Proof.
  intros Hopts.
  destruct (initProject_run (constructor cwd) opts w) as (w' & Hrun & Hfs).
  rewrite Hrun. cbn [snd]. unfold gate_closed. rewrite Hfs, lookup_insert_eq.
  rewrite union_lookup.
  replace (defaultConfig (constructor cwd) !! "connected") with (@None json)
    by reflexivity.
  destruct (opts !! "connected") as [[| [] | | | |]|]; try reflexivity.
  exfalso. apply Hopts. reflexivity.
Qed.

(** [init] on a connected project. *)
Lemma init_closes_the_gate_witness :
  gate_open (constructor "/srv/lab3") (fs connected_world) = true /\
  gate_closed (constructor "/srv/lab3")
    (fs (snd (initProject (constructor "/srv/lab3") ∅ connected_world))) = true.
Proof.
  split; [vm_compute; reflexivity|].
  apply init_closes_the_gate. discriminate.
Defined.

(** *** Commands that cannot throw *)

Lemma returns_bind {A B : Type} (c : M A) (k : A -> M B) :
  returns c -> (forall a, returns (k a)) -> returns (c ≫= k).
Proof.
  intros Hc Hk w. destruct (Hc w) as (a & w1 & Hcw).
  rewrite bind_run, Hcw. apply Hk.
Qed.

Lemma returns_ret {A : Type} (a : A) : returns (mret a : M A).
Proof. intros w. eexists _, _. reflexivity. Qed.

Lemma returns_log (s : string) : returns (log s).
Proof. intros w. eexists _, _. reflexivity. Qed.

Lemma returns_delay (ms : Z) : returns (delay ms).
Proof. intros w. eexists _, _. reflexivity. Qed.

Lemma returns_date_now : returns date_now.
Proof. intros w. eexists _, _. reflexivity. Qed.

Lemma returns_toLocaleString (t : Z) : returns (toLocaleString t).
Proof. intros w. eexists _, _. reflexivity. Qed.

Lemma returns_write_json (path : string) (v : json) : returns (write_json path v).
Proof. intros w. eexists _, _. reflexivity. Qed.

Lemma returns_forEach {A : Type} (f : A -> M unit) (xs : list A) :
  (forall x, returns (f x)) -> returns (forEach f xs).
Proof.
  intros Hf. induction xs as [|x xs IH]; cbn [forEach].
  - apply returns_ret.
  - apply returns_bind; [apply Hf | intros _; exact IH].
Qed.

Ltac returns_step :=
  lazymatch goal with
  | |- returns (_ ≫= _) => apply returns_bind; [| intros ?; cbv beta]
  | |- returns (log _) => apply returns_log
  | |- returns (mret _) => apply returns_ret
  | |- returns (delay _) => apply returns_delay
  | |- returns date_now => apply returns_date_now
  | |- returns (toLocaleString _) => apply returns_toLocaleString
  | |- returns (write_json _ _) => apply returns_write_json
  | |- returns (forEach _ _) => apply returns_forEach; intros ?; cbv beta
  | |- returns (if ?b then _ else _) => destruct b
  | |- returns (match ?x with _ => _ end) => destruct x
  end.

Ltac returns_steps := repeat returns_step.

Lemma returns_test_loop (categories : list json) (acc : results) :
  returns (test_loop categories acc).
Proof.
  revert acc. induction categories as [|c categories IH]; intros acc; cbn [test_loop].
  - apply returns_ret.
  - cbv zeta. returns_steps. apply IH.
Qed.

Lemma returns_runDemo (opts : options) : returns (runDemo opts).
Proof. unfold runDemo. returns_steps. Qed.

(** Past an open gate a gated command runs what follows the check. *)
Lemma gated_command_open (self : cli) (w : world) (banner : string) (rest : M unit) :
  gate_open self (fs w) = true ->
  (log banner;;
   connected ← isProjectConnected self;
   (if negb connected then throw not_connected else mret tt);;
   rest) w =
  rest (World (fs w) (now w) (out w ++ [banner]) (err w) (env w)).
Proof.
  intros Hopen. rewrite bind_run. cbv [log].
  rewrite bind_run, isProjectConnected_open by exact Hopen.
  reflexivity.
Qed.

Lemma gated_commands_return (self : cli) (opts : options) (w : world) :
  gate_open self (fs w) = true ->
  (exists w', runScan self opts w = (inr tt, w')) /\
  (exists w', analyzeCode self opts w = (inr tt, w')) /\
  (exists w', runTestCases self opts w = (inr tt, w')) /\
  (exists w', generateReport self opts w = (inr tt, w')).
Proof.
  intros Hopen. split; [|split; [|split]].
  - unfold runScan. rewrite gated_command_open by exact Hopen.
    match goal with |- exists w', ?c ?w0 = _ =>
      assert (Hc : returns c) by (cbv zeta; returns_steps);
      destruct (Hc w0) as ([] & w' & Hrun); eauto
    end.
  - unfold analyzeCode. rewrite gated_command_open by exact Hopen.
    match goal with |- exists w', ?c ?w0 = _ =>
      assert (Hc : returns c) by (cbv zeta; returns_steps);
      destruct (Hc w0) as ([] & w' & Hrun); eauto
    end.
  - unfold runTestCases. rewrite gated_command_open by exact Hopen.
    match goal with |- exists w', ?c ?w0 = _ =>
      assert (Hc : returns c)
        by (cbv zeta; apply returns_bind;
            [apply returns_test_loop | intros ?; returns_steps]);
      destruct (Hc w0) as ([] & w' & Hrun); eauto
    end.
  - rewrite (cli_report_run self opts w Hopen). eauto.
Qed.

(** X8. [init] then [connect] opens the gate, whatever the overrides,
    the options and the world they start from; [scan], [analyze],
    [test] and [report] then all return without an error, with any
    options. *)
Theorem init_then_connect_opens_the_gate
    (cwd : string) (overrides opts opts' : options) (w : world) :
  let self := constructor cwd in
  let w1 := snd (initProject self overrides w) in
  let w2 := snd (connectRepository self opts w1) in
  fst (connectRepository self opts w1) = inr tt /\
  gate_open self (fs w2) = true /\
  fst (runScan self opts' w2) = inr tt /\
  fst (analyzeCode self opts' w2) = inr tt /\
  fst (runTestCases self opts' w2) = inr tt /\
  fst (generateReport self opts' w2) = inr tt.
Proof.
  intros self w1 w2.
  destruct (initProject_run self overrides w) as (w1' & Hinit & Hfs1).
  assert (Hw1 : w1 = w1') by (unfold w1; rewrite Hinit; reflexivity).
  destruct (connect_on_record self opts w1 (overrides ∪ defaultConfig self))
    as (w2' & Hconnect & Hfs2).
  { rewrite Hw1, Hfs1. apply lookup_insert_eq. }
  assert (Hw2 : w2 = w2') by (unfold w2; rewrite Hconnect; reflexivity).
  assert (Hopen : gate_open self (fs w2) = true).
  { unfold gate_open. rewrite Hw2, Hfs2, lookup_insert_eq.
    rewrite lookup_insert_ne, lookup_insert_eq by discriminate. reflexivity. }
  split; [rewrite Hconnect; reflexivity|]. split; [exact Hopen|].
  destruct (gated_commands_return self opts' w2 Hopen)
    as ((? & ->) & (? & ->) & (? & ->) & (? & ->)).
  auto.
Qed.

(** X9. [test] is behind the gate like [scan], [analyze] and [report],
    with the same error and exit status 1; [demo], [config] and
    [help] are not: with the gate closed they end with status 0. *)
Theorem test_is_gated_demo_config_help_are_not
    (self : cli) (node script : string) (rest : list string) (w : world) :
  gate_closed self (fs w) = true ->
  (exists w', run self (node :: script :: "test" :: rest) w = (1, w') /\
              fs w' = fs w /\
              err w' = (err w ++ ["❌ Error: " +:+ message not_connected])%list) /\
  fst (run self (node :: script :: "demo" :: rest) w) = 0 /\
  fst (run self (node :: script :: "config" :: rest) w) = 0 /\
  fst (run self (node :: script :: "help" :: rest) w) = 0.
Proof.
  intros Hclosed. split; [|split; [|split]].
  - unfold run. cbn [drop]. unfold command_of. cbn [lookup list_lookup].
    cbv [dispatch String.eqb Ascii.eqb Bool.eqb]. unfold runTestCases.
    rewrite gated_command_closed by exact Hclosed.
    eexists. repeat split; reflexivity.
  - unfold run. cbn [drop]. unfold command_of. cbn [lookup list_lookup].
    cbv [dispatch String.eqb Ascii.eqb Bool.eqb].
    rewrite drop_0.
    destruct (returns_runDemo (parseOptions rest) w) as ([] & w' & ->). reflexivity.
  - unfold run. cbn [drop]. unfold command_of. cbn [lookup list_lookup].
    cbv [dispatch String.eqb Ascii.eqb Bool.eqb].
    unfold gate_closed in Hclosed. unfold showConfig.
    rewrite bind_run. unfold existsSync.
    destruct (fs w !! configFile self) as [[v|]|] eqn:Hfile; try discriminate Hclosed.
    + rewrite bool_decide_eq_true_2 by eauto. cbn [negb].
      rewrite bind_run. unfold read_json. rewrite Hfile. reflexivity.
    + rewrite bool_decide_eq_false_2 by (intros [x Hx]; discriminate Hx).
      reflexivity.
  - unfold run. cbn [drop]. unfold command_of. cbn [lookup list_lookup].
    cbv [dispatch String.eqb Ascii.eqb Bool.eqb]. reflexivity.
Qed.

(** [test --category security] in an empty directory. *)
Lemma test_is_gated_demo_config_help_are_not_witness :
  exists w',
    run (constructor "/srv/lab3") ["node"; "codeant-demo.js"; "test"; "--category"; "security"]
      fresh_world = (1, w') /\
    fs w' = ∅.
Proof.
  destruct (test_is_gated_demo_config_help_are_not (constructor "/srv/lab3")
              "node" "codeant-demo.js" ["--category"; "security"] fresh_world
              ltac:(vm_compute; reflexivity))
    as ((w' & Hrun & Hfs & _) & _).
  exists w'. auto.
Defined.

(** *** The option bag *)

Lemma value_or_true_shape (next : option string) : flag_value (value_or_true next).
Proof.
  unfold flag_value, value_or_true. destruct next as [v|]; [|auto].
  destruct (String.eqb v "") eqn:E; [auto|].
  right. exists v. split; [reflexivity|]. apply String.eqb_neq. exact E.
Qed.

Lemma parse_step_shape (arg : string) (next : option string) (o : options) :
  map_Forall (fun k v => k <> "__proto__" /\ flag_value v) o ->
  map_Forall (fun k v => k <> "__proto__" /\ flag_value v) (parse_step arg next o).
Proof.
  intros Ho. unfold parse_step, assign.
  destruct (startsWith arg "--"); [|exact Ho].
  destruct (String.eqb (substring_from 2 arg) "__proto__") eqn:E; [exact Ho|].
  apply map_Forall_insert_2; [|exact Ho].
  split; [apply String.eqb_neq; exact E | apply value_or_true_shape].
Qed.

Lemma parse_from_shape (n : nat) (args : list string) (o : options) :
  (length args <= n)%nat ->
  map_Forall (fun k v => k <> "__proto__" /\ flag_value v) o ->
  map_Forall (fun k v => k <> "__proto__" /\ flag_value v) (parse_from args o).
Proof.
  revert args o. induction n as [|n IH]; intros args o Hlen Ho.
  - destruct args; [exact Ho | cbn in Hlen; lia].
  - destruct args as [|arg [|next rest]]; cbn [parse_from].
    + exact Ho.
    + apply parse_step_shape. exact Ho.
    + apply IH; [cbn in Hlen; lia | apply parse_step_shape; exact Ho].
Qed.

(** X10. Whatever the arguments, every value of the option bag is
    [true] or a non-empty string: an empty argument after a flag
    counts as no value, and no key is ever [__proto__].  So a test
    such as [options.type ?] asks whether the flag was given. *)
Theorem option_values_are_true_or_non_empty (args : list string) :
  map_Forall (fun k v => k <> "__proto__" /\ flag_value v) (parseOptions args) /\
  (forall k, truthy (parseOptions args !! k) = bool_decide (is_Some (parseOptions args !! k))).
Proof.
  assert (Hshape : map_Forall (fun k v => k <> "__proto__" /\ flag_value v)
                     (parseOptions args)).
  { unfold parseOptions. eapply parse_from_shape; [reflexivity|].
    apply map_Forall_empty. }
  split; [exact Hshape|].
  intros k. destruct (parseOptions args !! k) as [v|] eqn:Hk.
  - rewrite bool_decide_eq_true_2 by eauto.
    destruct (Hshape k v Hk) as [_ [-> | (s & -> & Hs)]]; [reflexivity|].
    cbn [truthy]. apply String.eqb_neq in Hs. rewrite Hs. reflexivity.
  - rewrite bool_decide_eq_false_2 by (intros [x Hx]; discriminate Hx). reflexivity.
Qed.

(** X11. On a well-formed list, a flag then its non-empty value and so
    on, the bag maps each flag name to the value after it, a later
    pair overriding an earlier one of the same name. *)
Theorem parseOptions_on_well_formed_pairs (pairs : list (string * string)) :
  Forall (fun kv => kv.1 <> "__proto__" /\ kv.2 <> "") pairs ->
  parseOptions (pairs_to_args pairs) =
  foldl (fun acc kv => <[kv.1 := JStr kv.2]> acc) ∅ pairs.
Proof.
  intros Hwf. unfold parseOptions, pairs_to_args. apply parse_from_pairs. exact Hwf.
Qed.

(** [--type secrets --format json --type quality]. *)
Lemma parseOptions_on_well_formed_pairs_witness :
  let pairs := [("type", "secrets"); ("format", "json"); ("type", "quality")] in
  pairs_to_args pairs = ["--type"; "secrets"; "--format"; "json"; "--type"; "quality"] /\
  parseOptions (pairs_to_args pairs) =
    <["type" := JStr "quality"]> {[ "format" := JStr "json" ]}.
Proof.
  intros pairs. split; [reflexivity|].
  rewrite (parseOptions_on_well_formed_pairs pairs).
  - vm_compute. reflexivity.
  - repeat (apply Forall_cons_2; [split; discriminate|]). apply Forall_nil_2.
Defined.

(** *** Test results *)

Lemma runCategoryTests_sums (category : json) :
  let r := runCategoryTests category in
  total r = passed r + failed r /\ 0 <= passed r /\
  (Z.of_nat (length (issues r)) <= failed r).
Proof.
  unfold runCategoryTests.
  repeat match goal with |- context [if ?b then _ else _] => destruct b end;
    cbn; lia.
Qed.

(** X12. The totals [test] adds up over its categories are
    consistent, for every list of categories, known or not: the total
    is the sum of the passed and the failed, and there are no more
    issues than failed tests.  The loop itself never throws. *)
Theorem test_totals_add_up (categories : list json) (w : world) :
  exists r w',
    test_loop categories (Results 0 0 0 []) w = (inr r, w') /\
    total r = passed r + failed r /\
    0 <= passed r /\
    Z.of_nat (length (issues r)) <= failed r.
Proof.
  assert (Hloop : forall acc w0,
    total acc = passed acc + failed acc -> 0 <= passed acc ->
    Z.of_nat (length (issues acc)) <= failed acc ->
    exists r w',
      test_loop categories acc w0 = (inr r, w') /\
      total r = passed r + failed r /\ 0 <= passed r /\
      Z.of_nat (length (issues r)) <= failed r).
  { induction categories as [|c categories IH]; intros acc w0 H1 H2 H3.
    - exists acc, w0. auto.
    - cbn [test_loop]. cbv zeta.
      rewrite bind_run. cbv [log]. rewrite bind_run. cbv [delay].
      rewrite bind_run. cbv [log].
      destruct (runCategoryTests_sums c) as (Hc1 & Hc2 & Hc3). cbv zeta in *.
      apply IH; cbn [total passed failed issues]; try lia.
      rewrite length_app. lia. }
  apply Hloop; cbn; lia.
Qed.

(** *** Reports on disk, and the config shown *)

Lemma append_length (a b : string) :
  String.length (a +:+ b) = (String.length a + String.length b)%nat.
Proof.
  induction a as [|c a IH]; [reflexivity|].
  cbv [String.append]. cbn [String.length]. fold (String.append a b).
  rewrite IH. reflexivity.
Qed.

Lemma append_cancel_r (a b s : string) : a +:+ s = b +:+ s -> a = b.
Proof.
  revert b. induction a as [|c a IH]; intros b H.
  - apply (f_equal String.length) in H. rewrite !append_length in H.
    destruct b; [reflexivity|]. cbn in H. lia.
  - destruct b as [|c' b].
    + apply (f_equal String.length) in H. rewrite !append_length in H.
      cbn in H. lia.
    + cbv [String.append] in H. injection H as -> H.
      fold (String.append a s) (String.append b s) in H.
      f_equal. apply IH. exact H.
Qed.

Lemma report_names_differ (cwd : string) (t t' : Z) :
  t <> t' ->
  join cwd ("codeant-report-" +:+ pretty t +:+ ".json") <>
  join cwd ("codeant-report-" +:+ pretty t' +:+ ".json").
Proof.
  intros Hne Heq. apply join_cancel, append_cancel, append_cancel_r in Heq.
  apply (inj pretty) in Heq. exact (Hne Heq).
Qed.

(** X13. Two [report --format json] runs in a row on a connected
    project both succeed and leave two files, named after the two
    clock readings, each holding the report of its own run; the
    second run does not overwrite the first report, and the config
    file is the one before. *)
Theorem two_reports_in_a_row_both_stay (cwd : string) (opts : options) (w : world) :
  let self := constructor cwd in
  gate_open self (fs w) = true ->
  wants_json opts = true ->
  let w1 := snd (generateReport self opts w) in
  let w2 := snd (generateReport self opts w1) in
  let name := fun t : Z => join cwd ("codeant-report-" +:+ pretty t +:+ ".json") in
  fst (generateReport self opts w) = inr tt /\
  fst (generateReport self opts w1) = inr tt /\
  fs w2 !! name (now w + 5700) =
    Some (Json (JObj (reportData (Clock.toISOString (now w + 5700))))) /\
  fs w2 !! name (now w + 11400) =
    Some (Json (JObj (reportData (Clock.toISOString (now w + 11400))))) /\
  fs w2 !! configFile self = fs w !! configFile self.
Proof.
  intros self Hopen Hjson w1 w2 name.
  pose proof (cli_report_run self opts w Hopen) as Hrun1. cbv zeta in Hrun1.
  rewrite Hjson in Hrun1.
  assert (Hw1 : w1 = snd (generateReport self opts w)) by reflexivity.
  rewrite Hrun1 in Hw1. cbn [snd] in Hw1.
  assert (Hconfig1 : fs w1 !! configFile self = fs w !! configFile self).
  { rewrite Hw1. cbn [fs projectRoot self constructor].
    apply lookup_insert_ne. apply report_file_is_not_the_config. }
  assert (Hopen1 : gate_open self (fs w1) = true).
  { unfold gate_open. rewrite Hconfig1. exact Hopen. }
  pose proof (cli_report_run self opts w1 Hopen1) as Hrun2. cbv zeta in Hrun2.
  rewrite Hjson in Hrun2.
  assert (Hw2 : w2 = snd (generateReport self opts w1)) by reflexivity.
  rewrite Hrun2 in Hw2. cbn [snd] in Hw2.
  assert (Hnow1 : now w1 = now w + 5700) by (rewrite Hw1; reflexivity).
  split; [rewrite Hrun1; reflexivity|].
  split; [rewrite Hrun2; reflexivity|].
  rewrite Hw2. cbn [fs projectRoot self constructor]. rewrite Hnow1.
  replace (now w + 5700 + 5700) with (now w + 11400) by lia.
  split; [|split].
  - rewrite lookup_insert_ne by (apply report_names_differ; lia).
    rewrite Hw1. cbn [fs projectRoot self constructor]. apply lookup_insert_eq.
  - apply lookup_insert_eq.
  - rewrite lookup_insert_ne by apply report_file_is_not_the_config.
    exact Hconfig1.
Qed.

(** Two reports on the sample connected project. *)
Lemma two_reports_in_a_row_both_stay_witness :
  let self := constructor "/srv/lab3" in
  let opts := parseOptions ["--format"; "json"] in
  let w2 := snd (generateReport self opts (snd (generateReport self opts connected_world))) in
  fs w2 !! "/srv/lab3/codeant-report-1700000005700.json" =
    Some (Json (JObj (reportData "2023-11-14T22:13:25.700Z"))) /\
  fs w2 !! "/srv/lab3/codeant-report-1700000011400.json" =
    Some (Json (JObj (reportData "2023-11-14T22:13:31.400Z"))).
Proof.
  intros self opts w2.
  destruct (two_reports_in_a_row_both_stay "/srv/lab3" opts connected_world
              ltac:(vm_compute; reflexivity) ltac:(vm_compute; reflexivity))
    as (_ & _ & H1 & H2 & _).
  split; [exact H1 | exact H2].
Defined.

(** X14. What [init] wrote is what [config] shows: right after an
    [init] with any overrides, in any world, [config] prints its
    heading and the text of exactly the merged record, and returns
    without touching anything. *)
Theorem config_shows_what_init_wrote (self : cli) (overrides : options) (w : world) :
  let w1 := snd (initProject self overrides w) in
  showConfig self w1 =
    (inr tt,
     World (fs w1) (now w1)
       (out w1 ++ ["⚙️  CodeAnt AI Configuration" +:+ nl;
                   stringify (env w) (JObj (overrides ∪ defaultConfig self))])
       (err w1) (env w1)).
Proof.
  intros w1.
  destruct (initProject_run self overrides w) as (w1' & Hinit & Hfs).
  assert (Hw1 : w1 = w1') by (unfold w1; rewrite Hinit; reflexivity).
  assert (Henv : env w1 = env w).
  { pose proof (within_initProject self overrides w _ _ Hinit) as (_ & Henv & _).
    rewrite Hw1. exact Henv. }
  assert (Hfile : fs w1 !! configFile self =
                  Some (Json (JObj (overrides ∪ defaultConfig self)))).
  { rewrite Hw1, Hfs. apply lookup_insert_eq. }
  rewrite <- Henv. clearbody w1. clear Hw1 Henv.
  destruct w1 as [files t o e h]. cbn [fs now out err env] in *.
  unfold showConfig. exec. rewrite Hfile.
  rewrite bool_decide_eq_true_2 by eauto. cbn [negb]. exec. rewrite Hfile.
  rewrite <- app_assoc. reflexivity.
Qed.

End CommandLine.

(** * Properties of the report service *)

Section ReportService.
Import JS Service ServiceSpec.

Lemma join_then {A B : Type} (c : M A) (f : A -> M B) (w : world) :
  (c ≫= f) w = f (fst (c w)) (snd (c w)).
Proof. unfold mbind, M_bind. destruct (c w). reflexivity. Qed.

Lemma generateRecommendations_shape
    (s : outcome SecurityScan) (q : outcome QualityMetrics) :
  exists conditional,
    generateRecommendations s q = (conditional ++ [performanceRecommendation])%list /\
    Forall (fun r => category r = "Security" \/ category r = "Code Quality") conditional.
Proof.
  unfold generateRecommendations.
  destruct s as [s|]; [destruct (has_vulnerabilities s)|];
    (destruct q as [q|]; [destruct (below_threshold q)|]);
    cbn [app];
    match goal with |- exists c, ?l = _ /\ _ => exists (removelast l) end;
    (split; [reflexivity|]); cbn [removelast];
    repeat (apply Forall_cons_2; [(left; reflexivity) || (right; reflexivity)|]);
    apply Forall_nil_2.
Qed.

Lemma service_report_run (api : string -> task (exn + response)) (self : client)
    (w : world) :
  let joined := join3 (getSecurityScan api) (getQualityMetrics api) (analyzeCode api) w in
  let '(s, q, a) := fst joined in
  generateReport api self w =
  (Success
     {| timestamp := Clock.toISOString (now (snd joined));
        project := projectConfig self;
        security := section_of s "Failed to fetch security data";
        quality := section_of q "Failed to fetch quality data";
        analysis := section_of a "Failed to run analysis";
        recommendations := generateRecommendations s q |},
   snd joined).
Proof.
  intros joined. unfold generateReport. rewrite join_then. fold joined.
  destruct (fst joined) as [[s q] a]. reflexivity.
Qed.

(** C5. Whatever the security scan and the quality metrics returned,
    the recommendations end with the Performance entry, of priority
    Low and with its three fixed actions; the entries before it are
    the conditional Security and Code Quality ones.  So every report
    of [generateReport], with any implementation of the API call,
    carries it. *)
Theorem performance_recommendation_is_always_there
    (s : outcome SecurityScan) (q : outcome QualityMetrics)
    (api : string -> task (exn + response)) (self : client) (w : world) :
  (exists conditional,
     generateRecommendations s q = (conditional ++ [performanceRecommendation])%list /\
     Forall (fun r => category r = "Security" \/ category r = "Code Quality")
       conditional) /\
  performanceRecommendation ∈ generateRecommendations s q /\
  category performanceRecommendation = "Performance" /\
  priority performanceRecommendation = "Low" /\
  actions performanceRecommendation =
    ["Implement code splitting"; "Optimize images"; "Add lazy loading"] /\
  (exists report,
     fst (generateReport api self w) = Success report /\
     last (recommendations report) = Some performanceRecommendation).
Proof.
  destruct (generateRecommendations_shape s q) as (conditional & Heq & Hcond).
  split; [eauto|].
  split; [rewrite Heq; apply elem_of_app; right; apply list_elem_of_singleton; reflexivity|].
  repeat (split; [reflexivity|]).
  pose proof (service_report_run api self w) as Hrun. cbv zeta in Hrun.
  destruct (fst (join3 _ _ _ w)) as [[s' q'] a'].
  rewrite Hrun. eexists. split; [reflexivity|]. cbn [recommendations fst].
  destruct (generateRecommendations_shape s' q') as (c' & Heq' & _).
  rewrite Heq'. apply last_snoc.
Qed.

(** C6. Whatever the three sub-operations return, with any
    implementation of the API call, [generateReport] returns a
    successful report.  The section of a sub-operation that failed is
    its error marker; the section of one that succeeded is its
    result. *)
Theorem report_isolates_failed_sub_operations
    (api : string -> task (exn + response)) (self : client) (w w1 : world)
    (s : outcome SecurityScan) (q : outcome QualityMetrics) (a : outcome Analysis) :
  join3 (getSecurityScan api) (getQualityMetrics api) (analyzeCode api) w = (s, q, a, w1) ->
  exists report,
    generateReport api self w = (Success report, w1) /\
    (forall e, s = Failure e ->
       security report = ErrorMarker "Failed to fetch security data") /\
    (forall x, s = Success x -> security report = Populated x) /\
    (forall e, q = Failure e ->
       quality report = ErrorMarker "Failed to fetch quality data") /\
    (forall x, q = Success x -> quality report = Populated x) /\
    (forall e, a = Failure e ->
       analysis report = ErrorMarker "Failed to run analysis") /\
    (forall x, a = Success x -> analysis report = Populated x).
Proof.
  intros Hjoin.
  pose proof (service_report_run api self w) as Hrun. cbv zeta in Hrun.
  rewrite Hjoin in Hrun. cbn [fst snd] in Hrun.
  eexists. split; [exact Hrun|].
  cbn [security quality analysis].
  repeat split; intros ? ->; reflexivity.
Qed.

(** A report made while the security endpoint throws. *)
Lemma report_isolates_failed_sub_operations_witness :
  exists report w1,
    generateReport security_down (constructor "key" ∅) (pinned_world 0 1700000000000)
      = (Success report, w1) /\
    security report = ErrorMarker "Failed to fetch security data" /\
    (exists x, quality report = Populated x) /\
    (exists x, analysis report = Populated x).
Proof.
  destruct (join3 (getSecurityScan security_down) (getQualityMetrics security_down)
              (analyzeCode security_down) (pinned_world 0 1700000000000))
    as [[[s q] a] w1] eqn:Hjoin.
  destruct (report_isolates_failed_sub_operations security_down (constructor "key" ∅)
              _ _ _ _ _ Hjoin)
    as (report & Hrun & Hs1 & _ & _ & Hq2 & _ & Ha2).
  vm_compute in Hjoin. injection Hjoin as <- <- <- <-.
  exists report. eexists. split; [exact Hrun|].
  split; [eapply Hs1; reflexivity|].
  split; eexists; [eapply Hq2|eapply Ha2]; reflexivity.
Defined.

(** Runs a call of the service, leaving numbers and strings folded. *)
Ltac exec_service :=
  cbv [generateReport join3 getSecurityScan getQualityMetrics analyzeCode
       simulateApiCall timer resume generateMockVulnerabilities
       generateMockQualityMetrics generateMockAnalysisResults
       mbind M_bind mret M_ret random date_now set_clock
       stream drawn now String.eqb Ascii.eqb Bool.eqb fst snd].

Lemma iter_succ (k n : nat) : Nat.iter k S n = (n + k)%nat.
Proof. induction k as [|k IH]; simpl; lia. Qed.

(** C7, as the code has it.  [generateReport] takes no random source:
    it draws twelve values from the process-wide [Math.random] and
    reads the clock.  Two calls that are handed the same draws return
    the same report apart from the two values read off the clock, the
    [timestamp] and the [analysisId]. *)
Theorem report_is_a_function_of_the_draws_up_to_the_clock
    (self : client) (w1 w2 : world) :
  (forall i : nat, stream w1 (drawn w1 + i)%nat = stream w2 (drawn w2 + i)%nat) ->
  without_clock (fst (generateReport simulateApiCall self w1)) =
  without_clock (fst (generateReport simulateApiCall self w2)) /\
  drawn (snd (generateReport simulateApiCall self w1)) = (drawn w1 + 12)%nat /\
  drawn (snd (generateReport simulateApiCall self w2)) = (drawn w2 + 12)%nat.
Proof.
  destruct w1 as [r1 n1 t1], w2 as [r2 n2 t2]. cbn [stream drawn]. intros Hsame.
  assert (Hdraw : forall k : nat, r1 (Nat.iter k S n1) = r2 (Nat.iter k S n2)).
  { intros k. rewrite !iter_succ. apply Hsame. }
  pose proof (Hdraw 0%nat) as H0. pose proof (Hdraw 1%nat) as H1.
  pose proof (Hdraw 2%nat) as H2. pose proof (Hdraw 3%nat) as H3.
  pose proof (Hdraw 4%nat) as H4. pose proof (Hdraw 5%nat) as H5.
  pose proof (Hdraw 6%nat) as H6. pose proof (Hdraw 7%nat) as H7.
  pose proof (Hdraw 8%nat) as H8. pose proof (Hdraw 9%nat) as H9.
  pose proof (Hdraw 10%nat) as H10. pose proof (Hdraw 11%nat) as H11.
  clear Hdraw Hsame. cbv [Nat.iter nat_rect] in *.
  exec_service.
  rewrite H0, H1, H2.
  repeat match goal with
         | |- context [?a <=? ?b] => destruct (a <=? b)
         end;
    exec_service;
    cbv [without_clock section_of timestamp project security quality
         analysis recommendations results];
    rewrite ?H3, ?H4, ?H5, ?H6, ?H7, ?H8, ?H9, ?H10, ?H11;
    (split; [reflexivity|split; lia]).
Qed.

(** C7 fails as stated.  With the random source pinned to a constant,
    two calls in a row on the same client return different reports:
    the second carries a later [timestamp]. *)
Lemma pinned_source_still_gives_two_different_reports :
  let self := constructor "key" ∅ in
  let first := generateReport simulateApiCall self (pinned_world 0 1700000000000) in
  let second := generateReport simulateApiCall self (snd first) in
  stream (snd first) = stream (pinned_world 0 1700000000000) /\
  timestamp <$> (match fst first with Success r => Some r | Failure _ => None end) =
    Some "2023-11-14T22:13:21.000Z" /\
  timestamp <$> (match fst second with Success r => Some r | Failure _ => None end) =
    Some "2023-11-14T22:13:22.000Z" /\
  fst first <> fst second.
Proof.
  intros self first second.
  split; [vm_compute; reflexivity|].
  split; [vm_compute; reflexivity|].
  split; [vm_compute; reflexivity|].
  intros Heq.
  apply (f_equal (fun r => match r with Success x => timestamp x | Failure _ => "" end))
    in Heq.
  vm_compute in Heq. discriminate Heq.
Qed.

(** The second of two calls in a row under a pinned random source,
    against the first. *)
Lemma report_is_a_function_of_the_draws_up_to_the_clock_witness :
  let self := constructor "key" ∅ in
  let first := generateReport simulateApiCall self (pinned_world 0 1700000000000) in
  let second := generateReport simulateApiCall self (pinned_world 12 1700000001000) in
  without_clock (fst first) = without_clock (fst second).
Proof.
  intros self first second.
  apply (report_is_a_function_of_the_draws_up_to_the_clock self
           (pinned_world 0 1700000000000) (pinned_world 12 1700000001000)).
  intros i. reflexivity.
Defined.

(** ** More on the service: the mock values, timing and the caller *)

Import ServiceCalls.

(** *** The mock values *)

(** The grid of [round53 n]: for [n < 2^(53+s)] the result is one of
    the two neighbours of [n] among the multiples of some [p] that
    divides [2^s], the lower one unless [n] is at least half-way up. *)
Lemma round53_grid (n s : Z) :
  0 <= n < 2 ^ (53 + s) -> 0 <= s ->
  exists p q r,
    0 < p /\ (p | 2 ^ s) /\ n = q * p + r /\ 0 <= r < p /\
    (round53 n = q * p /\ 2 * r <= p \/ round53 n = (q + 1) * p /\ p <= 2 * r).
Proof.
  intros Hn Hs. unfold round53.
  set (s' := Z.max 0 (Z.log2 n - 52)).
  assert (Hs' : 0 <= s' <= s).
  { unfold s'. split; [lia|]. apply Z.max_lub; [lia|].
    destruct (Z.eq_dec n 0) as [->|Hn0]; [cbn; lia|].
    assert (Z.log2 n < 53 + s) by (apply Z.log2_lt_pow2; lia). lia. }
  clearbody s'.
  assert (Hp : 0 < 2 ^ s') by (apply Z.pow_pos_nonneg; lia).
  exists (2 ^ s'), (n / 2 ^ s'), (n mod 2 ^ s').
  split; [exact Hp|].
  split. { exists (2 ^ (s - s')). rewrite <- Z.pow_add_r by lia. f_equal. lia. }
  split. { rewrite Z.mul_comm. apply Z.div_mod. lia. }
  split. { apply Z.mod_pos_bound. exact Hp. }
  destruct (Z.ltb_spec (2 * (n mod 2 ^ s')) (2 ^ s')); [left; lia|].
  destruct (Z.ltb_spec (2 ^ s') (2 * (n mod 2 ^ s'))); [right; lia|].
  destruct (Z.even (n / 2 ^ s')); [left | right]; lia.
Qed.

(** Rounding does not cross a double. *)
Lemma round53_between (n s a b : Z) :
  0 <= n < 2 ^ (53 + s) -> 0 <= s ->
  (2 ^ s | a) -> (2 ^ s | b) -> a <= n <= b ->
  a <= round53 n <= b.
Proof.
  intros Hn Hs Ha Hb Hab.
  destruct (round53_grid n s Hn Hs) as (p & q & r & Hp & Hdiv & Hq & Hr & Hround).
  destruct (Z.divide_trans _ _ _ Hdiv Ha) as [a' ->].
  destruct (Z.divide_trans _ _ _ Hdiv Hb) as [b' ->].
  assert (a' <= q) by nia.
  assert (r = 0 /\ q <= b' \/ q + 1 <= b') by nia.
  destruct Hround as [[-> ?] | [-> ?]]; nia.
Qed.

(** Rounding stays below a double that is more than half a step
    away. *)
Lemma round53_below (n s b : Z) :
  0 <= n < 2 ^ (53 + s) -> 0 <= s ->
  (2 ^ s | b) -> 2 ^ s < 2 * (b - n) ->
  round53 n < b.
Proof.
  intros Hn Hs Hb Hgap.
  destruct (round53_grid n s Hn Hs) as (p & q & r & Hp & Hdiv & Hq & Hr & Hround).
  destruct (Z.divide_trans _ _ _ Hdiv Hb) as [b' ->].
  destruct Hdiv as [c Hc].
  assert (0 < c) by nia.
  assert (p <= 2 ^ s) by nia.
  assert (q < b') by nia.
  destruct Hround as [[-> ?] | [-> ?]]; nia.
Qed.

(** [Math.floor(Math.random() * k)] is one of [0 .. k-1]: the rounded
    product does not reach [k], as the exact one is [k * 2^-53] below
    it, more than half a step of the doubles there. *)
Lemma floor_times_range (k u : Z) :
  0 < k <= 2 ^ 53 -> 0 <= u < 2 ^ 53 -> 0 <= floor_times k u < k.
Proof.
  intros Hk Hu. unfold floor_times, times.
  destruct (Z.eq_dec k 1) as [->|Hk1].
  { assert (Hexact : round53 (1 * u) = 1 * u).
    { destruct (round53_between (1 * u) 0 (1 * u) (1 * u)) as [? ?];
        try lia; rewrite Z.pow_0_r; apply Z.divide_1_l. }
    rewrite Hexact. split; [apply Z.div_pos; lia|apply Z.div_lt_upper_bound; lia]. }
  pose proof (Z.log2_up_spec k ltac:(lia)) as [Hlow Hup].
  pose proof (Z.log2_up_nonneg k) as Hs.
  set (s := Z.log2_up k) in *.
  assert (Hs53 : s <= 53).
  { unfold s. rewrite <- (Z.log2_up_pow2 53) by lia. apply Z.log2_up_le_mono. lia. }
  assert (Hpow : 2 ^ s = 2 * 2 ^ Z.pred s).
  { rewrite <- Z.pow_succ_r by (unfold s in *; pose proof (Z.log2_up_pos k); lia).
    f_equal. lia. }
  assert (Hn : 0 <= k * u < 2 ^ (53 + s)).
  { rewrite Z.pow_add_r by lia. nia. }
  split.
  - apply Z.div_pos; [|lia].
    apply (round53_between (k * u) s 0 (k * u * 2 ^ s)); try lia.
    + apply Z.divide_0_r.
    + apply Z.divide_factor_r.
    + assert (0 < 2 ^ s) by (apply Z.pow_pos_nonneg; lia). nia.
  - apply Z.div_lt_upper_bound; [lia|].
    apply (round53_below (k * u) s); try lia.
    + exists (2 ^ (53 - s) * k). rewrite <- Z.mul_assoc, (Z.mul_comm k), Z.mul_assoc.
      rewrite <- Z.pow_add_r by lia. do 2 f_equal. lia.
    + nia.
Qed.

(** A timer of [simulateApiCall] runs for 1000 to 3000 ms. *)
Lemma timeout_range (u : Z) : 0 <= u < 2 ^ 53 -> 1000 <= timeout u <= 3000.
Proof.
  intros Hu. unfold timeout, times.
  assert (Hp : 0 <= round53 (2000 * u) <= 2000 * 2 ^ 53).
  { apply (round53_between _ 11); try lia.
    - apply Z.divide_0_r.
    - exists (2000 * 2 ^ 42). reflexivity. }
  assert (Hsum : 1000 * 2 ^ 53 <= round53 (1000 * 2 ^ 53 + round53 (2000 * u))
                 <= 3000 * 2 ^ 53).
  { apply (round53_between _ 12); try lia.
    - exists (1000 * 2 ^ 41). reflexivity.
    - exists (3000 * 2 ^ 41). reflexivity. }
  split.
  - apply Z.div_le_lower_bound; lia.
  - apply Z.div_le_upper_bound; lia.
Qed.

(** X15. While the random source stays in [[0, 1)], the mock values
    stay in the ranges the code names: a maintainability index of 80
    to 99, a complexity of 2 to 6, a coverage of 70 to 99, 0 to 2 code
    smells, a debt of 1h to 5h, 2 to 6 issues, and a vulnerability
    list that is empty or the fixed two entries. *)
Theorem mock_values_stay_in_range (w : world) :
  in_range w ->
  let m := fst (generateMockQualityMetrics w) in
  let a := fst (generateMockAnalysisResults w) in
  let v := fst (generateMockVulnerabilities w) in
  80 <= maintainabilityIndex m <= 99 /\
  2 <= cyclomaticComplexity m <= 6 /\
  70 <= testCoverage m <= 99 /\
  0 <= codeSmells m <= 2 /\
  (exists h, 1 <= h <= 5 /\ technicalDebt m = pretty h +:+ "h") /\
  2 <= issuesFound a <= 6 /\
  (length v = 0%nat \/ length v = 2%nat).
Proof.
  intros Hrange. destruct w as [rnd n t]. unfold in_range in Hrange. cbn [stream] in Hrange.
  cbv [generateMockQualityMetrics generateMockAnalysisResults generateMockVulnerabilities
       mbind M_bind mret M_ret random stream drawn now fst
       maintainabilityIndex cyclomaticComplexity testCoverage codeSmells technicalDebt
       issuesFound].
  pose proof (floor_times_range 20 _ ltac:(lia) (Hrange n)).
  pose proof (floor_times_range 5 _ ltac:(lia) (Hrange n)).
  pose proof (floor_times_range 5 _ ltac:(lia) (Hrange (S n))).
  pose proof (floor_times_range 30 _ ltac:(lia) (Hrange (S (S n)))).
  pose proof (floor_times_range 3 _ ltac:(lia) (Hrange (S (S (S n))))).
  pose proof (floor_times_range 5 _ ltac:(lia) (Hrange (S (S (S (S n)))))).
  repeat (split; [lia|]). split; [|split; [lia|]].
  - eexists. split; [|reflexivity]. lia.
  - destruct (above_half (rnd n)); auto.
Qed.

(** The mock values under a random source pinned to 0. *)
Lemma mock_values_stay_in_range_witness :
  80 <= maintainabilityIndex (fst (generateMockQualityMetrics (pinned_world 0 0))) <= 99.
Proof.
  destruct (mock_values_stay_in_range (pinned_world 0 0)) as (H & _).
  - intros i. cbn. lia.
  - exact H.
Defined.

(** *** Reports of the class as it stands *)

(** What every report made with the class's own [simulateApiCall]
    looks like, and when it is ready. *)
Lemma builtin_report_shape (self : client) (w : world) :
  in_range w ->
  let d := fun i : nat => timeout (stream w (drawn w + i)%nat) in
  exists report vulns sscore metrics qscore id results,
    generateReport simulateApiCall self w =
      (Success report,
       World (stream w) (drawn w + 12)%nat
             (now w + Z.max (d 0%nat) (Z.max (d 1%nat) (d 2%nat)))) /\
    security report =
      Populated {| vulnerabilities := Some vulns; securityScore := Some sscore |} /\
    quality report =
      Populated {| metrics := Some metrics; qualityScore := Some qscore |} /\
    analysis report =
      Populated {| analysisId := Some id; results := Some results |} /\
    8 <= sscore <= 10 /\
    8 <= qscore <= 9 /\
    2 <= issuesFound results <= 6 /\
    ((vulns = [] /\ recommendations report = [performanceRecommendation]) \/
     (length vulns = 2%nat /\
      recommendations report = [securityRecommendation 2; performanceRecommendation])).
Proof.
  intros Hrange. destruct w as [rnd n t].
  unfold in_range in Hrange. cbn [stream drawn now] in *.
  replace (n + 0)%nat with n by lia.
  replace (n + 1)%nat with (S n) by lia.
  replace (n + 2)%nat with (S (S n)) by lia.
  replace (n + 12)%nat with (S (S (S (S (S (S (S (S (S (S (S (S n)))))))))))) by lia.
  assert (Hscore : forall i, 8 <= floor_times 3 (rnd i) + 8 <= 10)
    by (intros i; pose proof (floor_times_range 3 _ ltac:(lia) (Hrange i)); lia).
  assert (Hquality : forall i, 8 <= floor_times 2 (rnd i) + 8 <= 9)
    by (intros i; pose proof (floor_times_range 2 _ ltac:(lia) (Hrange i)); lia).
  assert (Hissues : forall i, 2 <= floor_times 5 (rnd i) + 2 <= 6)
    by (intros i; pose proof (floor_times_range 5 _ ltac:(lia) (Hrange i)); lia).
  exec_service.
  repeat match goal with
         | |- context [?a <=? ?b] => destruct (Z.leb_spec a b)
         end;
    exec_service;
    (do 7 eexists);
    (split; [f_equal; f_equal; lia|]);
    cbv [security quality analysis recommendations section_of];
    (split; [reflexivity|]); (split; [reflexivity|]); (split; [reflexivity|]);
    (split; [apply Hscore|]); (split; [apply Hquality|]);
    (split; [cbv [issuesFound]; apply Hissues|]);
    unfold generateRecommendations, has_vulnerabilities, below_threshold;
    cbv [vulnerabilities qualityScore];
    match goal with
    | |- context [floor_times 2 ?u + 8 <? 8] =>
        destruct (Z.ltb_spec (floor_times 2 u + 8) 8) as [Hlt|_];
        [pose proof (Hquality _ : 8 <= floor_times 2 u + 8 <= 9); lia|]
    end;
    match goal with
    | |- context [above_half ?u] =>
        destruct (above_half u); [right | left]; split; reflexivity
    end.
Qed.

(** X16. With the class's own [simulateApiCall] no sub-operation
    fails: all three sections of every report are populated and no
    error marker appears.  While the random source stays in [[0, 1)]
    the security score is 8 to 10 and the quality score 8 or 9, so the
    Code Quality recommendation (score below 8) is never given: the
    recommendations are the Performance entry alone, or the Security
    entry for two vulnerabilities followed by it. *)
Theorem builtin_reports_are_fully_populated (self : client) (w : world) :
  in_range w ->
  exists report s q a,
    fst (generateReport simulateApiCall self w) = Success report /\
    security report = Populated s /\
    quality report = Populated q /\
    analysis report = Populated a /\
    (exists z, securityScore s = Some z /\ 8 <= z <= 10) /\
    (exists z, qualityScore q = Some z /\ 8 <= z <= 9) /\
    (qualityRecommendation ∉ recommendations report) /\
    (recommendations report = [performanceRecommendation] \/
     recommendations report = [securityRecommendation 2; performanceRecommendation]).
Proof.
  intros Hrange.
  destruct (builtin_report_shape self w Hrange)
    as (report & vulns & sscore & metrics & qscore & id & results &
        Hrun & Hs & Hq & Ha & Hsscore & Hqscore & _ & Hrecs).
  rewrite Hrun. cbn [fst].
  exists report. eexists _, _, _.
  split; [reflexivity|]. split; [exact Hs|]. split; [exact Hq|]. split; [exact Ha|].
  split; [exists sscore; auto|]. split; [exists qscore; auto|].
  split.
  - destruct Hrecs as [[_ ->] | [_ ->]]; intros Hin;
      repeat (apply elem_of_cons in Hin as [Hin | Hin]; [discriminate Hin|]);
      inversion Hin.
  - destruct Hrecs as [[_ ->] | [_ ->]]; auto.
Qed.

(** A report under a random source pinned to 0. *)
Lemma builtin_reports_are_fully_populated_witness :
  exists report,
    fst (generateReport simulateApiCall (constructor "key" ∅)
           (pinned_world 0 1700000000000)) = Success report /\
    recommendations report = [performanceRecommendation].
Proof.
  destruct (builtin_reports_are_fully_populated (constructor "key" ∅)
              (pinned_world 0 1700000000000))
    as (report & s & q & a & Hrun & _).
  { intros i. cbn. lia. }
  exists report. split; [exact Hrun|].
  apply (f_equal (fun r => match r with
                           | Success x => recommendations x
                           | Failure _ => []
                           end)) in Hrun.
  vm_compute in Hrun. symmetry. exact Hrun.
Defined.

(** X17. A report is ready when the last of its three timers fires:
    the clock then reads the start plus the longest of the three
    delays, which is 1000 to 3000 ms while the random source stays in
    [[0, 1)]; both ends occur, the upper one by the rounding of
    [1000 + Math.random() * 2000] at the largest random value.  The
    call has taken exactly twelve random values. *)
Theorem report_is_ready_after_the_longest_timer (self : client) (w : world) :
  in_range w ->
  let d := fun i : nat => timeout (stream w (drawn w + i)%nat) in
  let w' := snd (generateReport simulateApiCall self w) in
  now w' = now w + Z.max (d 0%nat) (Z.max (d 1%nat) (d 2%nat)) /\
  now w + 1000 <= now w' <= now w + 3000 /\
  drawn w' = (drawn w + 12)%nat /\
  stream w' = stream w /\
  (forall position t,
      now (snd (generateReport simulateApiCall self (pinned_world position t))) =
      t + 1000) /\
  (forall position t,
      now (snd (generateReport simulateApiCall self (pinned_high_world position t))) =
      t + 3000).
Proof.
  intros Hrange d w'.
  assert (Hlow : forall position t, in_range (pinned_world position t))
    by (intros position t i; cbn; lia).
  assert (Hhigh : forall position t, in_range (pinned_high_world position t))
    by (intros position t i; cbn; lia).
  split; [|split; [|split; [|split; [|split]]]].
  - destruct (builtin_report_shape self w Hrange)
      as (report & ? & ? & ? & ? & ? & ? & Hrun & _).
    unfold w'. rewrite Hrun. reflexivity.
  - destruct (builtin_report_shape self w Hrange)
      as (report & ? & ? & ? & ? & ? & ? & Hrun & _).
    unfold w'. rewrite Hrun. cbn [snd now].
    pose proof (timeout_range _ (Hrange (drawn w + 0)%nat)).
    pose proof (timeout_range _ (Hrange (drawn w + 1)%nat)).
    pose proof (timeout_range _ (Hrange (drawn w + 2)%nat)).
    lia.
  - destruct (builtin_report_shape self w Hrange)
      as (report & ? & ? & ? & ? & ? & ? & Hrun & _).
    unfold w'. rewrite Hrun. reflexivity.
  - destruct (builtin_report_shape self w Hrange)
      as (report & ? & ? & ? & ? & ? & ? & Hrun & _).
    unfold w'. rewrite Hrun. reflexivity.
  - intros position t.
    destruct (builtin_report_shape self _ (Hlow position t))
      as (report & ? & ? & ? & ? & ? & ? & Hrun & _).
    rewrite Hrun. cbn [snd now pinned_world stream].
    replace (timeout 0) with 1000 by (vm_compute; reflexivity). lia.
  - intros position t.
    destruct (builtin_report_shape self _ (Hhigh position t))
      as (report & ? & ? & ? & ? & ? & ? & Hrun & _).
    rewrite Hrun. cbn [snd now pinned_high_world stream].
    replace (timeout (2 ^ 53 - 1)) with 3000 by (vm_compute; reflexivity). lia.
Qed.

(** The timing under a random source pinned to the largest value. *)
Lemma report_is_ready_after_the_longest_timer_witness :
  now (snd (generateReport simulateApiCall (constructor "key" ∅)
              (pinned_high_world 0 1700000000000))) = 1700000003000.
Proof.
  destruct (report_is_ready_after_the_longest_timer (constructor "key" ∅)
              (pinned_high_world 0 1700000000000)) as (Hnow & _).
  { intros i. cbn. lia. }
  rewrite Hnow. vm_compute. reflexivity.
Defined.

(** X18. An endpoint that is none of the four makes [simulateApiCall]
    throw once its timer has fired, with the endpoint in the message;
    the random source is not used for the answer. *)
Theorem unknown_endpoint_throws (endpoint : string) (w : world) :
  Forall (fun known => endpoint <> known)
    ["/projects/init"; "/analysis/run"; "/security/scan"; "/quality/metrics"] ->
  resume (simulateApiCall endpoint) w =
    (inl (Error ("Unknown endpoint: " +:+ endpoint)), w) /\
  exists w',
    await (simulateApiCall endpoint) w =
      (inl (Error ("Unknown endpoint: " +:+ endpoint)), w') /\
    drawn w' = S (drawn w).
Proof.
  intros Hunknown.
  assert (Hresume : forall w0, resume (simulateApiCall endpoint) w0 =
                               (inl (Error ("Unknown endpoint: " +:+ endpoint)), w0)).
  { intros w0. unfold simulateApiCall. cbn [resume].
    repeat (apply Forall_cons in Hunknown as [Hname Hunknown];
            apply String.eqb_neq in Hname; rewrite Hname; clear Hname).
    reflexivity. }
  split; [apply Hresume|].
  unfold await. cbv [mbind M_bind date_now set_clock]. cbn [timer simulateApiCall].
  cbv [mbind M_bind mret M_ret random]. rewrite Hresume.
  eexists. split; reflexivity.
Qed.

(** The endpoint [/users]. *)
Lemma unknown_endpoint_throws_witness :
  fst (await (simulateApiCall "/users") (pinned_world 0 0)) =
  inl (Error "Unknown endpoint: /users").
Proof.
  destruct (unknown_endpoint_throws "/users" (pinned_world 0 0)) as (_ & w' & Hrun & _).
  - repeat (apply Forall_cons_2; [discriminate|]). apply Forall_nil_2.
  - rewrite Hrun. reflexivity.
Defined.

(** X19. [initializeProject] with the class's own [simulateApiCall]
    always succeeds, and its project id is [codeant_] followed by the
    clock reading at the expiry of its timer.  Two calls in a row
    therefore get different ids. *)
Theorem project_ids_differ_between_calls (w : world) :
  in_range w ->
  let first := await (initializeProject simulateApiCall) w in
  let second := await (initializeProject simulateApiCall) (snd first) in
  exists t1 t2 message1 message2,
    fst first = Success {| projectId := Some ("codeant_" +:+ pretty t1);
                           message := message1 |} /\
    fst second = Success {| projectId := Some ("codeant_" +:+ pretty t2);
                            message := message2 |} /\
    now w + 1000 <= t1 /\ t1 + 1000 <= t2 /\
    "codeant_" +:+ pretty t1 <> "codeant_" +:+ pretty t2.
Proof.
  intros Hrange. destruct w as [rnd n t]. unfold in_range in Hrange.
  cbn [stream] in Hrange.
  cbv [await initializeProject simulateApiCall timer resume
       mbind M_bind mret M_ret random date_now set_clock
       stream drawn now String.eqb Ascii.eqb Bool.eqb fst snd].
  pose proof (timeout_range _ (Hrange n)).
  pose proof (timeout_range _ (Hrange (S n))).
  eexists _, _, _, _. split; [reflexivity|]. split; [reflexivity|].
  split; [lia|]. split; [lia|].
  intros Heq. apply append_cancel in Heq. apply (inj pretty) in Heq. lia.
Qed.

(** Two initialisations under a random source pinned to 0. *)
Lemma project_ids_differ_between_calls_witness :
  let first := await (initializeProject simulateApiCall) (pinned_world 0 1700000000000) in
  let second := await (initializeProject simulateApiCall) (snd first) in
  projectId <$> (match fst first with Success r => Some r | Failure _ => None end) =
    Some (Some "codeant_1700000001000") /\
  projectId <$> (match fst second with Success r => Some r | Failure _ => None end) =
    Some (Some "codeant_1700000002000").
Proof.
  intros first second.
  destruct (project_ids_differ_between_calls (pinned_world 0 1700000000000))
    as (t1 & t2 & m1 & m2 & H1 & H2 & _).
  { intros i. cbn. lia. }
  split; vm_compute; reflexivity.
Defined.

(** X20. On a report made with the class's own [simulateApiCall],
    while the random source stays in [[0, 1)], the dashboard's
    security badge is [success] or [warning] and its quality badge is
    [success]: neither is ever [danger]. *)
Theorem badges_are_never_danger (self : client) (w : world) :
  in_range w ->
  exists report,
    fst (generateReport simulateApiCall self w) = Success report /\
    (getSecurityBadgeVariant (shown_security_score report) = "success" \/
     getSecurityBadgeVariant (shown_security_score report) = "warning") /\
    getQualityBadgeVariant (shown_quality_score report) = "success".
Proof.
  intros Hrange.
  destruct (builtin_report_shape self w Hrange)
    as (report & vulns & sscore & metrics & qscore & id & results &
        Hrun & Hs & Hq & _ & Hsscore & Hqscore & _).
  rewrite Hrun. cbn [fst]. exists report. split; [reflexivity|].
  unfold shown_security_score, shown_quality_score. rewrite Hs, Hq.
  cbn [securityScore qualityScore getSecurityBadgeVariant getQualityBadgeVariant].
  split.
  - destruct (Z.leb_spec 9 sscore); [auto|].
    destruct (Z.leb_spec 7 sscore); [auto|lia].
  - destruct (Z.leb_spec 8 qscore); [reflexivity|lia].
Qed.

(** The badges under a random source pinned to 0. *)
Lemma badges_are_never_danger_witness :
  exists report,
    fst (generateReport simulateApiCall (constructor "key" ∅)
           (pinned_world 0 1700000000000)) = Success report /\
    getQualityBadgeVariant (shown_quality_score report) = "success".
Proof.
  destruct (badges_are_never_danger (constructor "key" ∅) (pinned_world 0 1700000000000))
    as (report & Hrun & _ & Hq).
  { intros i. cbn. lia. }
  exists report. auto.
Defined.

End ReportService.
